(** * A shallow embedding of the mail-service verification scripts

    The scripts are small Python programs that talk to an HTTP API, an SMTP
    listener and standard output.  We model them as follows.

    - Values decoded from JSON are [pyval]: Python's [None], [bool], [int],
      [str], [list] and [dict] (a dict is its list of entries in insertion
      order).  JSON numbers are modelled as integers.
    - Exceptions are the [exn] constructors; every one of them is a subclass
      of Python's [Exception], so [except Exception] catches all of them.
    - A computation [M A] threads an effect log and may raise: it maps the log
      so far to the extended log and either a value or a raised exception.
      The log records the effects the claims talk about (HTTP requests, SMTP
      sessions, sleeps, values printed from server data, format flags).
      Prints that cannot raise and carry no server data are not logged.
    - The network is a [world]: the response (or exception) of every HTTP
      request, and for every SMTP session (numbered from 0 in the order they
      are opened) whether its connect, sendmail and quit raise. *)

From Stdlib Require Import String Ascii List ZArith Bool Lia.
Import ListNotations.
Open Scope string_scope.
Open Scope Z_scope.

(** ** Python values *)

#[local] Set Warnings "-register-all".

Inductive pyval : Type :=
| PNone
| PBool (b : bool)
| PInt (z : Z)
| PStr (s : string)
| PList (l : list pyval)
| PDict (d : list (string * pyval)).

Inductive exn : Type :=
| ConnectionError
| JSONDecodeError
| AttributeError
| KeyError
| TypeError
| SocketError
| SMTPException
| EOFError
| OSError.

Inductive Result (A : Type) : Type :=
| Ok (a : A)
| Err (e : exn).
Arguments Ok {A} a.
Arguments Err {A} e.

(** ** Effects recorded in the log *)

(** A message as built with [MIMEText] / [MIMEMultipart]: its [From], [To]
    and [Subject] headers and its parts (MIME subtype and body).  A body is
    an f-string: literal text and interpolated values. *)
Inductive frag : Type :=
| Lit (s : string)
| Val (v : pyval).

Record message : Type := mkMessage {
  m_from : string;
  m_to : pyval;
  m_subject : string;
  m_parts : list (string * list frag)
}.

Inductive ev : Type :=
| EvHttp (meth : string) (url : list frag) (auth : option (list frag))
| EvSmtp (host : string) (port : Z) (m : message)
| EvSleep (secs : Z)
| EvField (label : string) (v : pyval)
| EvIdFormat (ok : bool)
| EvInput
| EvWriteFile (path : string)
| EvTerminated.

(** ** The computation monad *)

Definition M (A : Type) : Type := list ev -> list ev * Result A.

Definition ret {A} (a : A) : M A := fun l => (l, Ok a).
Definition raise {A} (e : exn) : M A := fun l => (l, Err e).
Definition bind {A B} (m : M A) (k : A -> M B) : M B :=
  fun l => match m l with
           | (l', Ok a) => k a l'
           | (l', Err e) => (l', Err e)
           end.
Definition emit (e : ev) : M unit := fun l => (List.app l [e], Ok tt).

(** [try: body except Exception: handler] *)
Definition try_except {A} (body : M A) (handler : exn -> M A) : M A :=
  fun l => match body l with
           | (l', Ok a) => (l', Ok a)
           | (l', Err e) => handler e l'
           end.

Notation "x <- c1 ;; c2" := (bind c1 (fun x => c2))
  (at level 61, c1 at next level, right associativity).
Notation "c1 ;; c2" := (bind c1 (fun _ => c2))
  (at level 61, right associativity).

(** ** Python operations on values *)

Fixpoint dict_lookup (d : list (string * pyval)) (k : string) : option pyval :=
  match d with
  | [] => None
  | (k', v) :: d' => if String.eqb k k' then Some v else dict_lookup d' k
  end.

(** [bool(v)] *)
Definition truthy (v : pyval) : bool :=
  match v with
  | PNone => false
  | PBool b => b
  | PInt z => negb (Z.eqb z 0)
  | PStr s => negb (String.eqb s "")
  | PList l => negb (Nat.eqb (List.length l) 0)
  | PDict d => negb (Nat.eqb (List.length d) 0)
  end.

(** [v.get(k, default)]: only dicts have a [get] method. *)
Definition py_get (v : pyval) (k : string) (default : pyval) : M pyval :=
  match v with
  | PDict d => ret (match dict_lookup d k with Some x => x | None => default end)
  | _ => raise AttributeError
  end.

(** [v[k]] with a string key. *)
Definition py_getitem (v : pyval) (k : string) : M pyval :=
  match v with
  | PDict d => match dict_lookup d k with Some x => ret x | None => raise KeyError end
  | _ => raise TypeError
  end.

(** [k in v] *)
Definition py_in_dict (k : string) (v : pyval) : M bool :=
  match v with
  | PDict d => ret (match dict_lookup d k with Some _ => true | None => false end)
  | PList l => ret (existsb (fun x => match x with PStr s => String.eqb s k | _ => false end) l)
  | PStr s => ret (match String.index 0 k s with Some _ => true | None => false end)
  | _ => raise TypeError
  end.

(** [len(v)] *)
Definition py_len (v : pyval) : M Z :=
  match v with
  | PStr s => ret (Z.of_nat (String.length s))
  | PList l => ret (Z.of_nat (List.length l))
  | PDict d => ret (Z.of_nat (List.length d))
  | _ => raise TypeError
  end.

(** [v[:n]]: slicing works on strings and lists only. *)
Definition py_slice_to (v : pyval) (n : nat) : M pyval :=
  match v with
  | PStr s => ret (PStr (substring 0 n s))
  | PList l => ret (PList (firstn n l))
  | _ => raise TypeError
  end.

(** [for x in v] over a sized value: a list's items, a dict's keys, a
    string's characters. *)
Fixpoint str_chars (s : string) : list pyval :=
  match s with
  | EmptyString => []
  | String c s' => PStr (String c EmptyString) :: str_chars s'
  end.

Definition py_iter (v : pyval) : M (list pyval) :=
  match v with
  | PList l => ret l
  | PDict d => ret (map (fun kv => PStr (fst kv)) d)
  | PStr s => ret (str_chars s)
  | _ => raise TypeError
  end.

Definition is_dict (v : pyval) : bool :=
  match v with PDict _ => true | _ => false end.
Definition is_list (v : pyval) : bool :=
  match v with PList _ => true | _ => false end.

(** Decimal rendering of an integer, as in [f"{i+1}"]. *)
Fixpoint nat_digits (fuel : nat) (n : nat) (acc : string) : string :=
  match fuel with
  | O => acc
  | S fuel' =>
      let d := Nat.modulo n 10 in
      let acc' := String (ascii_of_nat (48 + d)) acc in
      if Nat.ltb n 10 then acc' else nat_digits fuel' (Nat.div n 10) acc'
  end.

Definition z_to_dec (z : Z) : string :=
  if z <? 0 then "-" ++ nat_digits (S (Z.to_nat (- z))) (Z.to_nat (- z)) ""
  else nat_digits (S (Z.to_nat z)) (Z.to_nat z) "".

Definition nl : string := String (ascii_of_nat 10) EmptyString.
Definition dq : string := String (ascii_of_nat 34) EmptyString.

Fixpoint for_each {A} (xs : list A) (f : A -> M unit) : M unit :=
  match xs with
  | [] => ret tt
  | x :: xs' => f x ;; for_each xs' f
  end.

(** ** The network *)

Inductive smtp_op : Type := Connect | Sendmail | Quit.

Record response : Type := mkResponse {
  status_code : Z;
  json_body : option pyval   (** [None]: the body is not valid JSON *)
}.

Record world : Type := mkWorld {
  (** method, URL (an f-string) -> response, or the exception raised *)
  http : string -> list frag -> Result response;
  (** SMTP session number, operation -> the exception it raises, if any *)
  smtp : nat -> smtp_op -> option exn;
  (** [time.strftime('%Y-%m-%d %H:%M:%S')] *)
  now : string;
  (** [int(time.time())] *)
  epoch : Z;
  (** what [input()] raises, if anything (e.g. [EOFError] on a closed stdin) *)
  input_raises : option exn;
  (** what writing a local file raises, if anything *)
  write_raises : option exn
}.

Fixpoint count_smtp (l : list ev) : nat :=
  match l with
  | [] => O
  | EvSmtp _ _ _ :: l' => S (count_smtp l')
  | _ :: l' => count_smtp l'
  end.

Definition exit_code (r : Result unit) : Z :=
  match r with Ok _ => 0 | Err _ => 1 end.

Section Network.
Variable w : world.

(** [requests.get(url, ...)] / [requests.post(url)] *)
Definition http_call (meth : string) (url : list frag) (auth : option (list frag))
  : M response :=
  emit (EvHttp meth url auth) ;;
  match http w meth url with
  | Ok r => ret r
  | Err e => raise e
  end.

(** [response.json()] *)
Definition response_json (r : response) : M pyval :=
  match json_body r with
  | Some v => ret v
  | None => raise JSONDecodeError
  end.

(** [smtplib.SMTP(host, port)]: opens session number [count_smtp log]. *)
Definition smtp_connect (host : string) (port : Z) (m : message) : M nat :=
  fun l =>
    let k := count_smtp l in
    let l' := List.app l [EvSmtp host port m] in
    match smtp w k Connect with
    | Some e => (l', Err e)
    | None => (l', Ok k)
    end.

(** [server.sendmail(...)] / [server.quit()] on session [k]. *)
Definition smtp_do (k : nat) (op : smtp_op) : M unit :=
  match smtp w k op with
  | Some e => raise e
  | None => ret tt
  end.

(** One SMTP transaction: connect, sendmail, quit. *)
Definition smtp_transaction (host : string) (port : Z) (m : message) : M unit :=
  k <- smtp_connect host port m ;;
  smtp_do k Sendmail ;;
  smtp_do k Quit.

Definition sleep (secs : Z) : M unit := emit (EvSleep secs).

(** [input(prompt)] *)
Definition read_input : M unit :=
  emit EvInput ;;
  match input_raises w with Some e => raise e | None => ret tt end.

(** [with open(path, "w") as f: f.write(...)] *)
Definition write_file (path : string) : M unit :=
  emit (EvWriteFile path) ;;
  match write_raises w with Some e => raise e | None => ret tt end.

End Network.

(** ** scripts/ws/simple_debug.py *)

Module SimpleDebug.
Section WithWorld.
Variable w : world.

Definition api_base : string := "http://localhost:3001/api".

Definition services : list (string * string) :=
  [ ("后端服务", api_base ++ "/../health");
    ("邮件服务", api_base ++ "/../health/mail");
    ("WebSocket服务", api_base ++ "/../health/websocket");
    ("集成服务", api_base ++ "/../health/integration") ].

(** The key information printed for one service (lines 35-54). *)
Definition show_service_info (service_name : string) (data : pyval) : M unit :=
  if String.eqb service_name "邮件服务" then
    mail_info <- py_get data "mailService" (PDict []) ;;
    v1 <- py_get mail_info "isRunning" (PBool false) ;; emit (EvField "isRunning" v1) ;;
    v2 <- py_get mail_info "port" (PStr "unknown") ;; emit (EvField "port" v2)
  else if String.eqb service_name "WebSocket服务" then
    ws_info <- py_get data "websocket" (PDict []) ;;
    v1 <- py_get ws_info "connectedClients" (PInt 0) ;; emit (EvField "connectedClients" v1) ;;
    v2 <- py_get ws_info "totalSubscriptions" (PInt 0) ;; emit (EvField "totalSubscriptions" v2)
  else if String.eqb service_name "集成服务" then
    integration_info <- py_get data "integration" (PDict []) ;;
    v1 <- py_get integration_info "isHealthy" (PBool false) ;; emit (EvField "isHealthy" v1) ;;
    v2 <- py_get integration_info "totalMails" (PInt 0) ;; emit (EvField "totalMails" v2) ;;
    v3 <- py_get integration_info "successfulBroadcasts" (PInt 0) ;;
    emit (EvField "successfulBroadcasts" v3) ;;
    v4 <- py_get integration_info "failedBroadcasts" (PInt 0) ;;
    emit (EvField "failedBroadcasts" v4)
  else ret tt.

Definition check_one_service (service_name url : string) : M unit :=
  try_except
    (response <- http_call w "GET" [Lit url] None ;;
     if status_code response =? 200 then
       data <- response_json response ;;
       show_service_info service_name data
     else ret tt)
    (fun _ => ret tt).

Definition check_services : M unit :=
  for_each services (fun '(service_name, url) => check_one_service service_name url).

(** The dict returned by [create_mailbox]. *)
Record mailbox : Type := mkMailbox {
  mb_address : pyval;
  mb_mailboxId : pyval;
  mb_token : pyval
}.

(** [result.get("success") and "data" in result] *)
Definition success_and_data (result : pyval) : M bool :=
  s <- py_get result "success" PNone ;;
  if truthy s then py_in_dict "data" result else ret false.

Definition create_mailbox : M (option mailbox) :=
  try_except
    (response <- http_call w "POST" [Lit "http://localhost:3001/api/mailbox/generate"] None ;;
     if orb (status_code response =? 200) (status_code response =? 201) then
       result <- response_json response ;;
       c <- success_and_data result ;;
       if c then
         data <- py_getitem result "data" ;;
         _ <- py_getitem data "address" ;;
         address <- py_getitem data "address" ;;
         mailboxId <- py_getitem data "id" ;;
         token <- py_getitem data "token" ;;
         ret (Some (mkMailbox address mailboxId token))
       else ret None
     else ret None)
    (fun _ => ret None).

Definition debug_content (to_address : pyval) : list frag :=
  [ Lit "这是一封调试测试邮件。

发送时间: "; Lit (now w); Lit "
收件地址: "; Val to_address; Lit "

此邮件用于测试邮件接收和WebSocket推送功能。" ].

Definition send_test_email (to_address : pyval) : M bool :=
  let msg := mkMessage "debug-test@example.com" to_address "调试测试邮件"
                       [("plain", debug_content to_address)] in
  try_except
    (smtp_transaction w "localhost" 2525 msg ;; ret true)
    (fun _ => ret false).

Definition mail_url (mailbox_id : pyval) : list frag :=
  [Lit "http://localhost:3001/api/mail/"; Val mailbox_id].

Definition check_mailbox_emails (mailbox_id token : pyval) : M pyval :=
  try_except
    (response <- http_call w "GET" (mail_url mailbox_id) (Some [Lit "Bearer "; Val token]) ;;
     if status_code response =? 200 then
       result <- response_json response ;;
       c <- success_and_data result ;;
       emails <- (if c then py_getitem result "data"
                  else ret (if is_list result then result else PList [])) ;;
       n <- py_len emails ;;
       emit (EvField "emailCount" (PInt n)) ;;
       items <- py_iter emails ;;
       for_each items (fun email =>
         if is_dict email then
           s <- py_get email "subject" (PStr "无主题") ;;
           f <- py_get email "from" (PStr "未知") ;;
           emit (EvField "subject" s) ;; emit (EvField "from" f)
         else ret tt) ;;
       ret emails
     else ret (PList []))
    (fun _ => ret (PList [])).

(** [for i in range(10): time.sleep(1)] *)
Definition wait_for_processing : M unit :=
  for_each (seq 0 10) (fun _ => sleep 1).

Definition main : M unit :=
  check_services ;;
  mailbox <- create_mailbox ;;
  match mailbox with
  | None => emit EvTerminated
  | Some mb =>
      ok <- send_test_email (mb_address mb) ;;
      if negb ok then emit EvTerminated
      else
        wait_for_processing ;;
        emails <- check_mailbox_emails (mb_mailboxId mb) (mb_token mb) ;;
        n <- py_len emails ;;
        emit (EvField "received" (PBool (0 <? n))) ;;
        n' <- py_len emails ;;
        ret tt
  end.

End WithWorld.
End SimpleDebug.

(** ** scripts/send_test_email.py *)

Module SendTestEmailCli.

(** The parsed command line ([argparse]). *)
Record args : Type := mkArgs {
  email : string;
  subject : string;
  content : string;
  html : bool;
  multiple : Z
}.

Definition plain_message (to_address subject content : string) : message :=
  mkMessage "test@example.com" (PStr to_address) subject [("plain", [Lit content])].

Definition html_content : string :=
"
    <html>
      <body>
        <h2>🎉 HTML 测试邮件</h2>
        <p>这是一封包含 <strong>HTML 格式</strong> 的测试邮件。</p>
        <ul>
          <li>支持 HTML 格式</li>
          <li>支持中文内容</li>
          <li>支持表情符号 😊</li>
        </ul>
        <p><a href=" ++ dq ++ "https://mail.nnu.edu.kg" ++ dq ++ ">访问临时邮箱服务</a></p>
      </body>
    </html>
    ".

Definition html_message (to_address : string) : message :=
  mkMessage "html-test@example.com" (PStr to_address) "HTML 格式测试邮件"
    [("plain", [Lit "这是纯文本版本的测试邮件"]); ("html", [Lit html_content])].

Section WithWorld.
Variable w : world.

Definition send_test_email (to_address subject content : string) : M bool :=
  try_except
    (smtp_transaction w "localhost" 1025 (plain_message to_address subject content) ;;
     ret true)
    (fun _ => ret false).

Definition send_html_email (to_address : string) : M bool :=
  try_except
    (smtp_transaction w "localhost" 1025 (html_message to_address) ;; ret true)
    (fun _ => ret false).

End WithWorld.

(** Subject and content of iteration [i] (0-based) in plain mode. *)
Definition iter_subject (a : args) (i : nat) : string :=
  if multiple a >? 1 then subject a ++ " #" ++ z_to_dec (Z.of_nat i + 1)
  else subject a.

Definition iter_content (a : args) (i : nat) : string :=
  if multiple a >? 1
  then content a ++ nl ++ nl ++ "邮件编号: " ++ z_to_dec (Z.of_nat i + 1) ++ "/"
       ++ z_to_dec (multiple a)
  else content a.

Section Main.
Variable w : world.

(** The body of [for i in range(args.multiple)]. *)
Definition iteration (a : args) (i : nat) : M bool :=
  if html a then send_html_email w (email a)
  else send_test_email w (email a) (iter_subject a i) (iter_content a i).

Fixpoint send_loop (a : args) (is : list nat) (success_count : Z) : M Z :=
  match is with
  | [] => ret success_count
  | i :: is' =>
      success <- iteration a i ;;
      send_loop a is' (if success then success_count + 1 else success_count)
  end.

Definition main (a : args) : M unit :=
  success_count <- send_loop a (seq 0 (Z.to_nat (multiple a))) 0 ;;
  emit (EvField "success_count" (PInt success_count)).

End Main.
End SendTestEmailCli.

(** ** scripts/ws/test_websocket_validation.py *)

Module WebsocketValidation.

Definition is_hex_char (c : ascii) : bool :=
  let n := nat_of_ascii c in
  (Nat.leb 48 n && Nat.leb n 57) || (Nat.leb 97 n && Nat.leb n 102)
  || (Nat.leb 65 n && Nat.leb n 70).

Fixpoint all_hex (s : string) : bool :=
  match s with
  | EmptyString => true
  | String c s' => is_hex_char c && all_hex s'
  end.

(** [re.match(r"^[0-9a-fA-F]{24}$", s)] on a string: Python's [$] matches at
    the end of the string and also just before a final newline. *)
Definition mongo_id_match (s : string) : bool :=
  (Nat.eqb (String.length s) 24 && all_hex s)
  || (Nat.eqb (String.length s) 25 && all_hex (substring 0 24 s)
      && String.eqb (substring 24 1 s) nl).

(** [re.match] raises [TypeError] on anything but a string. *)
Definition re_match_mongo (v : pyval) : M bool :=
  match v with
  | PStr s => ret (mongo_id_match s)
  | _ => raise TypeError
  end.

Record mailbox_info : Type := mkInfo {
  info_mailbox_id : pyval;
  info_token : pyval;
  info_address : pyval
}.

Section WithWorld.
Variable w : world.

Definition test_mailbox_id_format : M (option mailbox_info) :=
  try_except
    (response <- http_call w "POST" [Lit "http://localhost:3001/api/mailbox/generate"] None ;;
     if orb (status_code response =? 200) (status_code response =? 201) then
       data <- response_json response ;;
       s <- py_get data "success" PNone ;;
       if truthy s then
         d1 <- py_getitem data "data" ;; mailbox_id <- py_getitem d1 "id" ;;
         d2 <- py_getitem data "data" ;; token <- py_getitem d2 "token" ;;
         d3 <- py_getitem data "data" ;; address <- py_getitem d3 "address" ;;
         emit (EvField "address" address) ;;
         emit (EvField "id" mailbox_id) ;;
         n <- py_len mailbox_id ;; emit (EvField "idLength" (PInt n)) ;;
         t <- py_slice_to token 20 ;; emit (EvField "token" t) ;;
         ok <- re_match_mongo mailbox_id ;;
         emit (EvIdFormat ok) ;;
         ret (Some (mkInfo mailbox_id token address))
       else ret None
     else ret None)
    (fun _ => ret None).

(** The f-string of the page only evaluates [token[:30]] in a way that can
    raise; the page is then written to disk. *)
Definition create_websocket_test_html (mailbox_id token : pyval) : M unit :=
  _ <- py_slice_to token 30 ;;
  write_file w "scripts/ws/test_websocket_validation.html".

Definition main : M unit :=
  mailbox_info <- test_mailbox_id_format ;;
  match mailbox_info with
  | None => emit EvTerminated
  | Some i => create_websocket_test_html (info_mailbox_id i) (info_token i)
  end.

End WithWorld.
End WebsocketValidation.

(** ** scripts/ws/manual_websocket_test.py *)

Module ManualWebsocket.
Section WithWorld.
Variable w : world.

Definition test_address : string := "websockettest@127.0.0.1".

Definition manual_message (i : nat) : message :=
  let k := z_to_dec (Z.of_nat i + 1) in
  mkMessage ("manual-test-" ++ k ++ "@example.com") (PStr test_address)
    ("手动WebSocket测试邮件 #" ++ k)
    [("plain", [Lit ("这是第 " ++ k ++ " 封手动WebSocket测试邮件。" ++ nl ++ nl ++ "发送时间: ");
                Lit (now w);
                Lit (nl ++ "收件地址: " ++ test_address ++ nl ++ "邮件编号: " ++ k ++ "/3"
                     ++ nl ++ nl ++ "这个测试用于验证邮件接收服务是否能正确处理邮件。")])].

Definition send_one (i : nat) : M unit :=
  try_except
    (smtp_transaction w "localhost" 2525 (manual_message i) ;;
     if Nat.ltb i 2 then sleep 2 else ret tt)
    (fun _ => ret tt).

Definition main : M unit :=
  read_input w ;;
  for_each (seq 0 3) send_one.

End WithWorld.
End ManualWebsocket.

(** ** scripts/ws/test_frontend_websocket.py *)

Module FrontendWebsocket.
Section WithWorld.
Variable w : world.

Definition push_message (mailbox_address : pyval) (i : nat) : message :=
  let k := z_to_dec (Z.of_nat i + 1) in
  mkMessage ("test-" ++ k ++ "@example.com") mailbox_address ("实时推送测试邮件 #" ++ k)
    [("plain", [Lit ("这是第 " ++ k ++ " 封实时推送测试邮件。" ++ nl ++ nl ++ "发送时间: ");
                Lit (now w); Lit (nl ++ "收件地址: "); Val mailbox_address;
                Lit (nl ++ "邮件编号: " ++ k ++ "/3" ++ nl ++ nl
                     ++ "如果WebSocket连接正常，您应该能在前端界面实时看到这封邮件。")])].

(** Step 1: create the mailbox; [None] where the script returns early. *)
Definition create_step : M (option (pyval * pyval * pyval)) :=
  try_except
    (response <- http_call w "POST" [Lit "http://localhost:3001/api/mailbox/generate"] None ;;
     if orb (status_code response =? 200) (status_code response =? 201) then
       result <- response_json response ;;
       c <- SimpleDebug.success_and_data result ;;
       if c then
         data <- py_getitem result "data" ;;
         mailbox_address <- py_getitem data "address" ;;
         mailbox_id <- py_getitem data "id" ;;
         token <- py_getitem data "token" ;;
         emit (EvField "address" mailbox_address) ;;
         emit (EvField "id" mailbox_id) ;;
         t <- py_slice_to token 20 ;; emit (EvField "token" t) ;;
         ret (Some (mailbox_address, mailbox_id, token))
       else ret None
     else ret None)
    (fun _ => ret None).

Definition send_one (mailbox_address : pyval) (i : nat) : M unit :=
  try_except
    (smtp_transaction w "localhost" 2525 (push_message mailbox_address i) ;;
     if Nat.ltb i 2 then sleep 3 else ret tt)
    (fun _ => ret tt).

(** Step 4: the integration health check. *)
Definition integration_step : M unit :=
  try_except
    (response <- http_call w "GET" [Lit "http://localhost:3001/health/integration"] None ;;
     if status_code response =? 200 then
       integration_status <- response_json response ;;
       integration_info <- py_get integration_status "integration" (PDict []) ;;
       v1 <- py_get integration_info "isHealthy" PNone ;;
       emit (EvField "isHealthy" (PBool (truthy v1))) ;;
       v2 <- py_get integration_info "totalMails" (PInt 0) ;; emit (EvField "totalMails" v2) ;;
       v3 <- py_get integration_info "successfulBroadcasts" (PInt 0) ;;
       emit (EvField "successfulBroadcasts" v3) ;;
       v4 <- py_get integration_info "failedBroadcasts" (PInt 0) ;;
       emit (EvField "failedBroadcasts" v4) ;;
       v5 <- py_get integration_info "successRate" (PStr "0%") ;;
       emit (EvField "successRate" v5)
     else ret tt)
    (fun _ => ret tt).

Definition main : M unit :=
  created <- create_step ;;
  match created with
  | None => ret tt
  | Some (mailbox_address, mailbox_id, token) =>
      read_input w ;;
      for_each (seq 0 3) (send_one mailbox_address) ;;
      integration_step
  end.

End WithWorld.
End FrontendWebsocket.

(** ** scripts/ws/test_current_setup.py *)

Module CurrentSetup.
Section WithWorld.
Variable w : world.

Definition domain_message (test_address : string) : message :=
  mkMessage "test@example.com" (PStr test_address) "域名测试邮件"
    [("plain", [Lit "这是一封测试邮件"])].

Definition test_with_domain (domain : string) : M bool :=
  let test_address := "test" ++ z_to_dec (epoch w) ++ "@" ++ domain in
  try_except
    (smtp_transaction w "localhost" 2525 (domain_message test_address) ;; ret true)
    (fun _ => ret false).

Definition test_with_127_domain : M bool := test_with_domain "127.0.0.1".
Definition test_with_nnu_domain : M bool := test_with_domain "nnu.edu.kg".

Definition check_backend_status : M unit :=
  try_except
    (response <- http_call w "GET" [Lit "http://localhost:3001/health"] None ;;
     response' <- http_call w "GET" [Lit "http://localhost:3001/health/mail"] None ;;
     if status_code response' =? 200 then
       data <- response_json response' ;;
       mail_service <- py_get data "mailService" (PDict []) ;;
       p <- py_get mail_service "port" PNone ;;
       r <- py_get mail_service "isRunning" PNone ;;
       emit (EvField "port" p) ;; emit (EvField "isRunning" r)
     else ret tt)
    (fun _ => ret tt).

Definition main : M unit :=
  check_backend_status ;;
  success_127 <- test_with_127_domain ;;
  success_nnu <- test_with_nnu_domain ;;
  ret tt.

End WithWorld.
End CurrentSetup.

(** ** send_test_mail.py *)

Module SendTestMail.
Section WithWorld.
Variable w : world.

Definition test_message : message :=
  mkMessage "test@example.com" (PStr "6d40f1571izg@nnu.edu.kg") "MailHog Test Email"
    [("plain", [Lit "This is a test email to verify MailHog integration is working! 📧✨"])].

(** [with smtplib.SMTP(...) as server: server.sendmail(...)]; leaving the
    [with] block sends QUIT.  The three [except] clauses all print. *)
Definition send_test_email : M unit :=
  try_except
    (smtp_transaction w "127.0.0.1" 2525 test_message)
    (fun _ => ret tt).

End WithWorld.
End SendTestMail.

(** ** test_external_email.py *)

Module ExternalEmail.
Section WithWorld.
Variable w : world.

Definition external_body : string :=
"
    Hello from the outside world! 🌍
    
    This email simulates what would happen if someone sent an email 
    from Gmail, Yahoo, or another external provider to your temporary mailbox.
    
    In a real-world scenario with proper DNS configuration, this is how 
    external emails would be delivered to your mail service.
    
    Best regards,
    External Email System
    ".

Definition external_message : message :=
  mkMessage "external.user@gmail.com" (PStr "6d40f1571izg@nnu.edu.kg")
    "🌐 External Email Test - Simulating Gmail" [("plain", [Lit external_body])].

Definition send_external_email : M unit :=
  try_except
    (smtp_transaction w "127.0.0.1" 1025 external_message)
    (fun _ => ret tt).

End WithWorld.
End ExternalEmail.

(** ** Predicates used in the statements *)

Definition success_status (s : Z) : bool := (200 <=? s) && (s <=? 299).

Definition has_key (v : pyval) (k : string) : bool :=
  match v with
  | PDict d => match dict_lookup d k with Some _ => true | None => false end
  | _ => false
  end.

(** A well-formed provisioning envelope: an object whose [success] flag is
    set and whose [data] is an object with [id], [address] and [token]. *)
Definition wf_envelope (v : pyval) : bool :=
  match v with
  | PDict d =>
      match dict_lookup d "success", dict_lookup d "data" with
      | Some s, Some data =>
          truthy s && has_key data "id" && has_key data "address" && has_key data "token"
      | _, _ => false
      end
  | _ => false
  end.

(** The retrieval request of [check_mailbox_emails]. *)
Definition is_retrieval (e : ev) : bool :=
  match e with
  | EvHttp _ [Lit u; Val _] _ => String.eqb u "http://localhost:3001/api/mail/"
  | _ => false
  end.

Definition is_smtp (e : ev) : bool :=
  match e with EvSmtp _ _ _ => true | _ => false end.

Definition is_sleep (e : ev) : bool :=
  match e with EvSleep _ => true | _ => false end.

(** Events of the injection, waiting and retrieval phases. *)
Definition later_phase (e : ev) : bool := is_smtp e || is_sleep e || is_retrieval e.

Definition sleeps (l : list ev) : Z :=
  fold_right (fun e acc => match e with EvSleep s => s + acc | _ => acc end) 0 l.

Definition sized (v : pyval) : bool :=
  match v with PStr _ | PList _ | PDict _ => true | _ => false end.

(** The value printed under [label], if any. *)
Fixpoint surfaced (l : list ev) (label : string) : option pyval :=
  match l with
  | [] => None
  | EvField k v :: l' => if String.eqb k label then Some v else surfaced l' label
  | _ :: l' => surfaced l' label
  end.

(** Whether SMTP session [k] goes through connect, sendmail and quit. *)
Definition session_ok (w : world) (k : nat) : bool :=
  match smtp w k Connect, smtp w k Sendmail, smtp w k Quit with
  | None, None, None => true
  | _, _, _ => false
  end.

Fixpoint smtp_messages (l : list ev) : list message :=
  match l with
  | [] => []
  | EvSmtp _ _ m :: l' => m :: smtp_messages l'
  | _ :: l' => smtp_messages l'
  end.

Local Open Scope list_scope.

(** * Observations, sample worlds and the reading of [M] *)

(** [runs P Q m], a Hoare-style reading of [M]: from any log, [m] appends
    events satisfying [P] and its result satisfies [Q]. *)
Definition runs (P : ev -> Prop) {A} (Q : Result A -> Prop) (m : M A) : Prop :=
  forall l, exists ex r, m l = (l ++ ex, r) /\ Forall P ex /\ Q r.

Definition ok_and {A} (R : A -> Prop) (r : Result A) : Prop :=
  match r with Ok a => R a | Err _ => False end.

Definition if_ok {A} (R : A -> Prop) (r : Result A) : Prop :=
  match r with Ok a => R a | Err _ => True end.

(** [logs P m]: every event [m] appends satisfies [P], whatever [m] returns. *)
Definition logs {A} (P : ev -> Prop) (m : M A) : Prop := runs P (if_ok (fun _ => True)) m.

Definition generate_url : list frag := [Lit "http://localhost:3001/api/mailbox/generate"].

(** The provisioning response is a failure: the call raised, or its status
    is not 2xx, or its body is not a well-formed envelope. *)
Definition provision_failed (w : world) : Prop :=
  match http w "POST" generate_url with
  | Err _ => True
  | Ok r =>
      success_status (status_code r) = false
      \/ match json_body r with Some v => wf_envelope v = false | None => True end
  end.

(** The retrieval call returned [v] as the [data] field of a wrapped
    envelope. *)
Definition retrieved_data (w : world) (mailbox_id v : pyval) : Prop :=
  exists r d s,
    http w "GET" (SimpleDebug.mail_url mailbox_id) = Ok r
    /\ status_code r = 200 /\ json_body r = Some (PDict d)
    /\ dict_lookup d "success" = Some s /\ truthy s = true
    /\ dict_lookup d "data" = Some v.

(** [result.get("success") and "data" in result] on an object. *)
Definition success_and_data_dict (d : list (string * pyval)) : bool :=
  match dict_lookup d "success" with
  | Some s => truthy s && match dict_lookup d "data" with Some _ => true | None => false end
  | None => false
  end.

(** The value [check_mailbox_emails] returns, read off the retrieval
    response: the [data] field of a 200 JSON object whose [success] is truthy
    and whose [data] has a [len()]; the empty list in every other case. *)
Definition retrieval_result (w : world) (mailbox_id : pyval) : pyval :=
  match http w "GET" (SimpleDebug.mail_url mailbox_id) with
  | Ok r =>
      if status_code r =? 200 then
        match json_body r with
        | Some (PDict d) =>
            match dict_lookup d "success", dict_lookup d "data" with
            | Some s, Some v => if truthy s && sized v then v else PList []
            | _, _ => PList []
            end
        | _ => PList []
        end
      else PList []
  | Err _ => PList []
  end.

Definition test_world (resp : string -> list frag -> Result response) : world :=
  mkWorld resp (fun _ _ => None) "2025-01-01 00:00:00" 1735689600 None None.

Definition msg1 : pyval := PDict [("subject", PStr "Test #1"); ("from", PStr "a@example.com")].

(** The retrieval endpoint answers 200 with [body]. *)
Definition retrieval_world (body : pyval) : world :=
  test_world (fun _ _ => Ok (mkResponse 200 (Some body))).

Definition failing_provision_world : world :=
  test_world (fun _ _ => Ok (mkResponse 500 None)).

(** The provisioning call succeeds with a well-formed envelope carrying
    [address], [id] and [token]. *)
Definition provision_ok (w : world) (address mailbox_id token : pyval) : Prop :=
  exists r d s data,
    http w "POST" generate_url = Ok r
    /\ (status_code r = 200 \/ status_code r = 201)
    /\ json_body r = Some (PDict d)
    /\ dict_lookup d "success" = Some s /\ truthy s = true
    /\ dict_lookup d "data" = Some (PDict data)
    /\ dict_lookup data "address" = Some address
    /\ dict_lookup data "id" = Some mailbox_id
    /\ dict_lookup data "token" = Some token.

Definition debug_message (w : world) (to_address : pyval) : message :=
  mkMessage "debug-test@example.com" to_address "调试测试邮件"
    [("plain", SimpleDebug.debug_content w to_address)].

Definition sample_id : pyval := PStr "65a1b2c3d4e5f60718293a4b".
Definition sample_address : pyval := PStr "k3x9@nnu.edu.kg".
Definition sample_token : pyval := PStr "eyJhbGciOiJIUzI1NiJ9.e30.sig".

Definition sample_envelope : pyval :=
  PDict [("success", PBool true);
         ("data", PDict [("id", sample_id); ("address", sample_address);
                         ("token", sample_token)])].

Definition wrapped (msgs : list pyval) : pyval :=
  PDict [("success", PBool true); ("data", PList msgs)].

(** Provisioning succeeds, the mailbox already holds one message at every
    retrieval, health endpoints answer [{}]. *)
Definition ok_world : world :=
  test_world (fun meth url =>
    if String.eqb meth "POST" then Ok (mkResponse 201 (Some sample_envelope))
    else match url with
         | [Lit _; Val _] => Ok (mkResponse 200 (Some (wrapped [msg1])))
         | _ => Ok (mkResponse 200 (Some (PDict [])))
         end).

(** The part of a log before the first retrieval request. *)
Fixpoint before_retrieval (l : list ev) : list ev :=
  match l with
  | [] => []
  | e :: l' => if is_retrieval e then [] else e :: before_retrieval l'
  end.

(** The message iteration [i] hands to SMTP. *)
Definition cli_message (a : SendTestEmailCli.args) (i : nat) : message :=
  if SendTestEmailCli.html a then SendTestEmailCli.html_message (SendTestEmailCli.email a)
  else SendTestEmailCli.plain_message (SendTestEmailCli.email a)
         (SendTestEmailCli.iter_subject a i) (SendTestEmailCli.iter_content a i).

Definition cli_event (a : SendTestEmailCli.args) (i : nat) : ev :=
  EvSmtp "localhost" 1025 (cli_message a i).

Definition args_html2 : SendTestEmailCli.args :=
  SendTestEmailCli.mkArgs "k3x9@nnu.edu.kg" "Test" "body" true 2.
Definition args_plain2 : SendTestEmailCli.args :=
  SendTestEmailCli.mkArgs "k3x9@nnu.edu.kg" "Test" "body" false 2.
Definition quiet_world : world := test_world (fun _ _ => Err ConnectionError).

Definition args_html_other : SendTestEmailCli.args :=
  SendTestEmailCli.mkArgs "k3x9@nnu.edu.kg" "Another subject" "another body" true 2.

Definition sliceable (v : pyval) : bool :=
  match v with PStr _ | PList _ => true | _ => false end.

Definition odd_id_data : list (string * pyval) :=
  [("id", PStr "mbx-42"); ("address", sample_address); ("token", sample_token)].

Definition odd_id_envelope : list (string * pyval) :=
  [("success", PBool true); ("data", PDict odd_id_data)].

(** Provisioning answers 201 with an identifier that is not 24 hex digits. *)
Definition odd_id_world : world :=
  test_world (fun meth _ =>
    if String.eqb meth "POST" then Ok (mkResponse 201 (Some (PDict odd_id_envelope)))
    else Ok (mkResponse 200 (Some (PDict [])))).

(** The subsystem entry [data.get(k, {})] of a health body, when it is an
    object (an absent entry reads as the empty object). *)
Definition sub_object (d : list (string * pyval)) (k : string)
  : option (list (string * pyval)) :=
  match dict_lookup d k with
  | None => Some []
  | Some (PDict m) => Some m
  | Some _ => None
  end.

(** The value of [m.get(k, dflt)]. *)
Definition field_or (m : list (string * pyval)) (k : string) (dflt : pyval) : pyval :=
  match dict_lookup m k with Some v => v | None => dflt end.

Definition health_body : list (string * pyval) :=
  [("mailService", PDict [("isRunning", PBool true); ("port", PInt 2525)]);
   ("websocket", PDict [("connectedClients", PInt 3)])].

(** Each health endpoint answers 200 with a body of its own: the mail
    probe's [mailService] has both fields, the WebSocket probe's [websocket]
    only the client count, the integration probe's [integration] only the
    mail count; the backend's [/health/mail] reports the port only. *)
Definition health_world : world :=
  test_world (fun _ url =>
    match url with
    | [Lit u] =>
        if String.eqb u "http://localhost:3001/api/../health/mail" then
          Ok (mkResponse 200 (Some (PDict [("mailService",
                 PDict [("isRunning", PBool true); ("port", PInt 2525)])])))
        else if String.eqb u "http://localhost:3001/api/../health/websocket" then
          Ok (mkResponse 200 (Some (PDict [("websocket",
                 PDict [("connectedClients", PInt 3)])])))
        else if String.eqb u "http://localhost:3001/api/../health/integration" then
          Ok (mkResponse 200 (Some (PDict [("integration",
                 PDict [("totalMails", PInt 7)])])))
        else if String.eqb u "http://localhost:3001/health" then
          Ok (mkResponse 200 (Some (PDict [("status", PStr "ok")])))
        else if String.eqb u "http://localhost:3001/health/mail" then
          Ok (mkResponse 200 (Some (PDict [("mailService", PDict [("port", PInt 2525)])])))
        else Err ConnectionError
    | _ => Err ConnectionError
    end).

(** [nr R m]: from any log, [m] returns normally with a value satisfying [R]. *)
Definition nr {A} (R : A -> Prop) (m : M A) : Prop :=
  forall l, exists l' a, m l = (l', Ok a) /\ R a.

(** The two lines the retrieval listing prints for one item: subject and
    sender of a dict, with their defaults; nothing for other items. *)
Definition listing_events (email : pyval) : list ev :=
  match email with
  | PDict d => [EvField "subject" (field_or d "subject" (PStr "无主题"));
                EvField "from" (field_or d "from" (PStr "未知"))]
  | _ => []
  end.

Definition is_http (e : ev) : bool :=
  match e with EvHttp _ _ _ => true | _ => false end.

Definition is_write (e : ev) : bool :=
  match e with EvWriteFile _ => true | _ => false end.

(** The events one send of a three-message script leaves: the SMTP
    session, then the pause, which only follows a session that went
    through and is skipped after the last message. *)
Definition send_with_pause (w : world) (port : Z) (secs : Z) (m : message) (i : nat) : list ev :=
  EvSmtp "localhost" port m
  :: (if session_ok w i && Nat.ltb i 2 then [EvSleep secs] else []).

Definition args_none : SendTestEmailCli.args :=
  SendTestEmailCli.mkArgs "k3x9@nnu.edu.kg" "Test" "body" false 0.

(** Provisioning and retrieval succeed, every SMTP connection is refused. *)
Definition send_fail_world : world :=
  mkWorld (http ok_world) (fun _ _ => Some ConnectionError) "2025-01-01 00:00:00"
    1735689600 None None.

(** The retrieval endpoint answers with two items, a message and a number. *)
Definition listing_world : world :=
  retrieval_world (wrapped [msg1; PInt 7]).

(** Provisioning answers 201 with a numeric identifier. *)
Definition numeric_id_data : list (string * pyval) :=
  [("id", PInt 42); ("address", sample_address); ("token", sample_token)].

Definition numeric_id_envelope : list (string * pyval) :=
  [("success", PBool true); ("data", PDict numeric_id_data)].

Definition numeric_id_world : world :=
  test_world (fun meth _ =>
    if String.eqb meth "POST" then Ok (mkResponse 201 (Some (PDict numeric_id_envelope)))
    else Ok (mkResponse 200 (Some (PDict [])))).

(** * Proofs *)

(** ** Rules for [runs] *)

Section Runs.
Variable P : ev -> Prop.

Lemma runs_ret {A} (Q : Result A -> Prop) a : Q (Ok a) -> runs P Q (ret a).
Proof. intros HQ l. exists [], (Ok a). rewrite app_nil_r. auto. Qed.

Lemma runs_raise {A} (Q : Result A -> Prop) e : Q (Err e) -> runs P Q (raise e).
Proof. intros HQ l. exists [], (Err e). rewrite app_nil_r. auto. Qed.

Lemma runs_emit (Q : Result unit -> Prop) e : P e -> Q (Ok tt) -> runs P Q (emit e).
Proof. intros HP HQ l. exists [e], (Ok tt). auto. Qed.

Lemma runs_bind {A B} (Q1 : Result A -> Prop) (Q2 : Result B -> Prop) m k :
  runs P Q1 m ->
  (forall e, Q1 (Err e) -> Q2 (Err e)) ->
  (forall a, Q1 (Ok a) -> runs P Q2 (k a)) ->
  runs P Q2 (bind m k).
Proof.
  intros Hm He Hk l. unfold bind.
  destruct (Hm l) as (ex & r & Heq & HP & HQ). rewrite Heq.
  destruct r as [a|e].
  - destruct (Hk a HQ (l ++ ex)) as (ex' & r' & Heq' & HP' & HQ').
    rewrite Heq'. exists (ex ++ ex'), r'. rewrite app_assoc.
    split; [reflexivity|]. split; [apply Forall_app; auto | exact HQ'].
  - exists ex, (Err e). auto.
Qed.

Lemma runs_try {A} (Q1 Q2 : Result A -> Prop) body h :
  runs P Q1 body ->
  (forall a, Q1 (Ok a) -> Q2 (Ok a)) ->
  (forall e, Q1 (Err e) -> runs P Q2 (h e)) ->
  runs P Q2 (try_except body h).
Proof.
  intros Hb Ha Hh l. unfold try_except.
  destruct (Hb l) as (ex & r & Heq & HP & HQ). rewrite Heq.
  destruct r as [a|e].
  - exists ex, (Ok a). auto.
  - destruct (Hh e HQ (l ++ ex)) as (ex' & r' & Heq' & HP' & HQ').
    rewrite Heq'. exists (ex ++ ex'), r'. rewrite app_assoc.
    split; [reflexivity|]. split; [apply Forall_app; auto | exact HQ'].
Qed.

Lemma runs_weaken {A} (Q1 Q2 : Result A -> Prop) m :
  runs P Q1 m -> (forall r, Q1 r -> Q2 r) -> runs P Q2 m.
Proof.
  intros Hm HQ l. destruct (Hm l) as (ex & r & ? & ? & ?). exists ex, r. auto.
Qed.

Lemma runs_for_each {A} (xs : list A) f :
  (forall x, runs P (ok_and (fun _ => True)) (f x)) ->
  runs P (ok_and (fun _ => True)) (for_each xs f).
Proof.
  intros Hf. induction xs as [|x xs IH]; simpl.
  - apply runs_ret. exact I.
  - eapply runs_bind; [apply Hf | intros e [] | intros [] _; exact IH].
Qed.

End Runs.

Create HintDb runs_db.
#[local] Hint Resolve runs_ret runs_raise : runs_db.

Lemma logs_ret {A} P (a : A) : logs P (ret a).
Proof. apply runs_ret. exact I. Qed.

Lemma logs_raise {A} P e : logs P (@raise A e).
Proof. apply runs_raise. exact I. Qed.

Lemma logs_emit P e : P e -> logs P (emit e).
Proof. intros. apply runs_emit; [assumption | exact I]. Qed.

Lemma logs_bind {A B} P (m : M A) (k : A -> M B) :
  logs P m -> (forall a, logs P (k a)) -> logs P (bind m k).
Proof.
  intros Hm Hk. eapply runs_bind; [exact Hm | intros; exact I | intros a _; apply Hk].
Qed.

Lemma logs_try {A} P (body : M A) h :
  logs P body -> (forall e, logs P (h e)) -> logs P (try_except body h).
Proof.
  intros Hb Hh. eapply runs_try; [exact Hb | intros; exact I | intros e _; apply Hh].
Qed.

Lemma logs_for_each {A} P (xs : list A) f :
  (forall x, logs P (f x)) -> logs P (for_each xs f).
Proof.
  intros Hf. induction xs as [|x xs IH]; simpl.
  - apply logs_ret.
  - apply logs_bind; [apply Hf | intros []; exact IH].
Qed.

Ltac logs_tac :=
  repeat (first
    [ apply logs_bind; [ | intro ]
    | apply logs_try; [ | intro ]
    | apply logs_for_each; intro
    | apply logs_ret
    | apply logs_raise
    | apply logs_emit; simpl; try reflexivity
    | progress unfold http_call, response_json, py_get, py_getitem, py_in_dict,
        py_len, py_slice_to, py_iter, smtp_transaction, smtp_do, sleep,
        SimpleDebug.success_and_data, WebsocketValidation.re_match_mongo
    | match goal with
      | |- logs _ (match ?x with _ => _ end) => destruct x
      | |- logs _ (if ?b then _ else _) => destruct b
      end ]).

(** The health checks of [simple_debug.py] neither inject, sleep nor
    retrieve. *)
Lemma check_services_logs (w : world) :
  logs (fun e => later_phase e = false) (SimpleDebug.check_services w).
Proof.
  unfold SimpleDebug.check_services. apply logs_for_each. intros [name url].
  unfold SimpleDebug.check_one_service, SimpleDebug.show_service_info.
  logs_tac.
all: simpl; reflexivity.
Qed.

Lemma create_mailbox_none (w : world) (l : list ev) :
  provision_failed w ->
  SimpleDebug.create_mailbox w l
  = (l ++ [EvHttp "POST" generate_url None], Ok None).
Proof.
  unfold provision_failed, generate_url. intros Hf.
  unfold SimpleDebug.create_mailbox, try_except, bind, http_call, emit, ret, raise.
  destruct (http w "POST" _) as [r|e]; [|reflexivity].
  destruct r as [st body]; simpl in *.
  destruct (st =? 200) eqn:E200; destruct (st =? 201) eqn:E201; simpl;
    try reflexivity;
    (assert (Hs : success_status st = true)
      by (unfold success_status; apply Z.eqb_eq in E200 || apply Z.eqb_eq in E201;
          subst; reflexivity));
    (destruct Hf as [Hf|Hf]; [rewrite Hs in Hf; discriminate|]);
    (unfold response_json; simpl; destruct body as [v|]; [|reflexivity]);
    (unfold SimpleDebug.success_and_data, py_get, py_in_dict, py_getitem, bind, ret, raise;
     destruct v as [| | | | |d]; try reflexivity);
    (simpl in Hf; destruct (dict_lookup d "success") as [s|]; simpl; [|reflexivity]);
    (destruct (truthy s); simpl; [|reflexivity]);
    (destruct (dict_lookup d "data") as [data|]; simpl; [|reflexivity]);
    (destruct data as [| | | | |dd]; try reflexivity);
    (simpl in Hf; destruct (dict_lookup dd "address"); simpl; [|reflexivity]);
    (destruct (dict_lookup dd "id"); simpl; [|reflexivity]);
    (destruct (dict_lookup dd "token"); simpl; [discriminate|reflexivity]).
Qed.

Lemma check_services_ok (w : world) (l : list ev) :
  exists ex, SimpleDebug.check_services w l = (l ++ ex, Ok tt)
             /\ Forall (fun e => later_phase e = false) ex.
Proof.
  assert (H : runs (fun e => later_phase e = false) (ok_and (fun _ => True))
                (SimpleDebug.check_services w)).
  { unfold SimpleDebug.check_services. apply runs_for_each. intros [name url].
    unfold SimpleDebug.check_one_service.
    eapply runs_try.
    - pose proof (check_services_logs w) as Hl.
      unfold SimpleDebug.check_services in Hl.
      clear Hl. unfold SimpleDebug.show_service_info. fold (@logs unit).
      logs_tac. all: simpl; reflexivity.
    - intros; exact I.
    - intros; apply runs_ret; exact I. }
  destruct (H l) as (ex & [[]|e] & Heq & HP & HQ); [|contradiction].
  exists ex. auto.
Qed.

(** ** C1: a failed provisioning ends the run before any later phase *)

(** C1.  Whenever the provisioning call raises, answers with a non-2xx
    status, or answers with a body that is not a well-formed
    [{success, data: {id, address, token}}] envelope (read at the shape level:
    the success flag is set and [data] is an object holding the three keys),
    [create_mailbox] returns [None]; [main] of [simple_debug.py] then prints
    that the test is terminated and returns, having sent no mail, slept no
    time and made no retrieval request. *)
Theorem provisioning_failure_is_fatal (w : world) :
  provision_failed w ->
  (forall l, SimpleDebug.create_mailbox w l
             = (l ++ [EvHttp "POST" generate_url None], Ok None))
  /\ exists log, SimpleDebug.main w [] = (log, Ok tt)
                 /\ last log EvInput = EvTerminated
                 /\ forallb (fun e => negb (later_phase e)) log = true.
Proof.
  intros Hf. split; [intros l; apply create_mailbox_none; exact Hf|].
  destruct (check_services_ok w []) as (ex & Hcs & HP).
  exists (ex ++ [EvHttp "POST" generate_url None] ++ [EvTerminated]).
  unfold SimpleDebug.main, bind at 1. rewrite Hcs. simpl.
  unfold bind. rewrite create_mailbox_none by exact Hf.
  unfold emit. split; [simpl; rewrite <- app_assoc; reflexivity|].
  split.
  - change [EvHttp "POST" generate_url None; EvTerminated]
      with ([EvHttp "POST" generate_url None] ++ [EvTerminated]).
    rewrite app_assoc. apply last_last.
  - apply forallb_forall. intros e Hin.
    apply in_app_or in Hin as [Hin|Hin].
    + rewrite Forall_forall in HP. rewrite (HP e Hin). reflexivity.
    + simpl in Hin. destruct Hin as [<-|[<-|[]]]; reflexivity.
Qed.

Ltac bind_with Q :=
  eapply runs_bind with (Q1 := Q);
  [ | let e := fresh "e" in let He := fresh "He" in
      intros e He; simpl in He |- *; first [exact I | contradiction] | ].

Lemma http_call_runs (P : ev -> Prop) (w : world) meth url auth :
  P (EvHttp meth url auth) ->
  runs P (if_ok (fun r => http w meth url = Ok r)) (http_call w meth url auth).
Proof.
  intros HP. unfold http_call.
  bind_with (ok_and (fun _ : unit => True)); [apply runs_emit; [exact HP | exact I] |].
  intros [] _. destruct (http w meth url) eqn:E.
  - apply runs_ret. reflexivity.
  - apply runs_raise. exact I.
Qed.

(** Everything after the envelope is parsed: [len], the listing loop and
    the [return]. *)
Lemma listing_runs (emails : pyval) :
  runs (fun _ => True) (if_ok (fun v => v = emails /\ sized emails = true))
    (n <- py_len emails ;;
     emit (EvField "emailCount" (PInt n)) ;;
     items <- py_iter emails ;;
     for_each items (fun email =>
       if is_dict email then
         s <- py_get email "subject" (PStr "无主题") ;;
         f <- py_get email "from" (PStr "未知") ;;
         emit (EvField "subject" s) ;; emit (EvField "from" f)
       else ret tt) ;;
     ret emails).
Proof.
  destruct emails as [| | | s | l | d];
    try (apply runs_raise; exact I);
    (bind_with (ok_and (fun _ : Z => True)); [apply runs_ret; exact I |]; intros n _;
     bind_with (ok_and (fun _ : unit => True)); [apply runs_emit; exact I |]; intros [] _;
     bind_with (ok_and (fun _ : list pyval => True)); [apply runs_ret; exact I |];
     intros items _;
     bind_with (if_ok (fun _ : unit => True));
       [apply (logs_for_each (fun _ => True)); intros x; logs_tac |];
     intros [] _; apply runs_ret; split; reflexivity).
Qed.

Lemma success_and_data_runs (P : ev -> Prop) (result : pyval) :
  runs P (if_ok (fun c => exists d, result = PDict d /\ c = success_and_data_dict d))
    (SimpleDebug.success_and_data result).
Proof.
  unfold SimpleDebug.success_and_data, py_get.
  destruct result as [| | | | |d]; try (apply runs_raise; exact I).
  bind_with (ok_and (fun s => s = match dict_lookup d "success" with
                                  | Some x => x | None => PNone end));
    [apply runs_ret; reflexivity|].
  intros s ->. destruct (dict_lookup d "success") as [s|] eqn:Hs; simpl;
    [destruct (truthy s) eqn:Ht; simpl|];
    apply runs_ret; exists d; (split; [reflexivity|]);
    unfold success_and_data_dict; rewrite Hs; try rewrite Ht; reflexivity.
Qed.

Lemma check_mailbox_emails_runs (w : world) (mailbox_id token : pyval) :
  runs (fun _ => True)
    (ok_and (fun v => sized v = true /\ (v = PList [] \/ retrieved_data w mailbox_id v)))
    (SimpleDebug.check_mailbox_emails w mailbox_id token).
Proof.
  unfold SimpleDebug.check_mailbox_emails.
  eapply runs_try with
    (Q1 := if_ok (fun v => sized v = true
                           /\ (v = PList [] \/ retrieved_data w mailbox_id v)));
    [ | intros a H; exact H
      | intros e _; apply runs_ret; split; [reflexivity | left; reflexivity]].
  bind_with (if_ok (fun r => http w "GET" (SimpleDebug.mail_url mailbox_id) = Ok r));
    [apply http_call_runs; exact I|].
  intros r Hr. simpl in Hr.
  destruct (status_code r =? 200) eqn:Hs;
    [|apply runs_ret; split; [reflexivity | left; reflexivity]].
  apply Z.eqb_eq in Hs.
  destruct (json_body r) as [body|] eqn:Hb.
  2:{ eapply runs_bind with (Q1 := if_ok (fun _ : pyval => False));
      [unfold response_json; rewrite Hb; apply runs_raise; exact I
      | intros; exact I | ].
      intros a []. }
  bind_with (ok_and (fun x => x = body));
    [unfold response_json; rewrite Hb; apply runs_ret; reflexivity|].
  intros result Hres; simpl in Hres; subst result.
  bind_with (if_ok (fun c => exists d, body = PDict d /\ c = success_and_data_dict d));
    [apply success_and_data_runs|].
  intros c Hc; simpl in Hc; destruct Hc as (d & -> & ->).
  bind_with (if_ok (fun emails => emails = PList [] \/ retrieved_data w mailbox_id emails)).
  - unfold success_and_data_dict, py_getitem.
    destruct (dict_lookup d "success") as [s|] eqn:Hsucc; simpl;
      [|apply runs_ret; left; reflexivity].
    destruct (truthy s) eqn:Ht; simpl; [|apply runs_ret; left; reflexivity].
    destruct (dict_lookup d "data") as [v|] eqn:Hd; simpl;
      [|apply runs_ret; left; reflexivity].
    apply runs_ret. right. exists r, d, s. repeat split; assumption.
  - intros emails Hem; simpl in Hem.
    eapply runs_weaken; [apply listing_runs|].
    intros [v|e]; simpl; [intros [-> Hsz]; split; assumption | trivial].
Qed.

(** Concrete worlds: every HTTP request is answered by [resp], every SMTP
    operation succeeds, stdin and the file system work. *)

(** ** C4: envelope tolerance of the retrieval parser *)

(** C4 (code bug).  A wrapped envelope [{success: true, data: [m]}] yields
    [[m]], but a bare JSON list [[m]] (the legacy form the code means to use
    as is, line 135) yields [[]]: [result.get] raises [AttributeError] on a
    list before the [isinstance(result, list)] test is reached, and the
    [except] turns that into the empty list. *)
Theorem retrieval_bare_list_dropped :
  snd (SimpleDebug.check_mailbox_emails
         (retrieval_world (PDict [("success", PBool true); ("data", PList [msg1])]))
         (PStr "65a1b2c3d4e5f60718293a4b") (PStr "tok") [])
  = Ok (PList [msg1])
  /\ snd (SimpleDebug.check_mailbox_emails (retrieval_world (PList [msg1]))
            (PStr "65a1b2c3d4e5f60718293a4b") (PStr "tok") [])
     = Ok (PList []).
Proof. split; vm_compute; reflexivity. Qed.

(** ** C10: the retrieval check always returns *)




(** ** Witnesses *)

Lemma provisioning_failure_is_fatal_witness :
  provision_failed failing_provision_world
  /\ ((forall l, SimpleDebug.create_mailbox failing_provision_world l
                 = (l ++ [EvHttp "POST" generate_url None], Ok None))
      /\ exists log, SimpleDebug.main failing_provision_world [] = (log, Ok tt)
                     /\ last log EvInput = EvTerminated
                     /\ forallb (fun e => negb (later_phase e)) log = true).
Proof.
  split.
  - simpl. left. reflexivity.
  - apply provisioning_failure_is_fatal. simpl. left. reflexivity.
Defined.

Lemma create_mailbox_some (w : world) a i t (l : list ev) :
  provision_ok w a i t ->
  SimpleDebug.create_mailbox w l
  = (l ++ [EvHttp "POST" generate_url None], Ok (Some (SimpleDebug.mkMailbox a i t))).
Proof.
  intros (r & d & s & data & Hr & Hst & Hb & Hs & Ht & Hd & Ha & Hi & Htok).
  unfold generate_url in Hr.
  unfold SimpleDebug.create_mailbox, try_except, bind, http_call, emit, ret, raise.
  rewrite Hr. destruct r as [st body]; simpl in *. subst body.
  unfold response_json, SimpleDebug.success_and_data, py_get, py_in_dict, py_getitem,
    bind, ret, raise.
  destruct Hst as [-> | ->]; simpl; rewrite Hs, Ht, Hd; simpl; rewrite Ha, Hi, Htok;
    reflexivity.
Qed.

Lemma bind_emit_eq {A B} (e : ev) (f : unit -> M A) (k : A -> M B) l :
  bind (bind (emit e) f) k l = bind (f tt) k (l ++ [e]).
Proof. reflexivity. Qed.

(** [check_mailbox_emails] makes exactly one request, the retrieval with the
    bearer token, and then neither sleeps nor retrieves again. *)
Lemma check_mailbox_emails_log (w : world) (mailbox_id token : pyval) (l : list ev) :
  exists ex r,
    SimpleDebug.check_mailbox_emails w mailbox_id token l
    = (l ++ [EvHttp "GET" (SimpleDebug.mail_url mailbox_id)
               (Some [Lit "Bearer "; Val token])] ++ ex, r)
    /\ Forall (fun e => later_phase e = false) ex.
Proof.
  unfold SimpleDebug.check_mailbox_emails, try_except at 1, http_call.
  rewrite bind_emit_eq.
  match goal with
  | |- context [bind ?m ?k (l ++ [?req])] =>
      assert (H : logs (fun x => later_phase x = false) (bind m k)) by
        (logs_tac; simpl; reflexivity);
      destruct (H (l ++ [req])) as (ex & r & Heq & HP & _); rewrite Heq
  end.
  destruct r as [v|e].
  - exists ex, (Ok v). rewrite <- app_assoc. auto.
  - exists ex, (Ok (PList [])). unfold ret. rewrite <- app_assoc. auto.
Qed.

Lemma bind_ok {A B} (m : M A) (k : A -> M B) l l' a :
  m l = (l', Ok a) -> bind m k l = k a l'.
Proof. intros H. unfold bind. rewrite H. reflexivity. Qed.

Lemma filter_later_nil (ex : list ev) :
  Forall (fun e => later_phase e = false) ex -> filter later_phase ex = [].
Proof.
  induction 1 as [|e ex He _ IH]; simpl; [reflexivity|]. rewrite He. exact IH.
Qed.

(** ** C10 (continued): the exact value of the retrieval check *)

Lemma listing_loop_ok (items : list pyval) (l : list ev) :
  exists l',
    for_each items (fun email =>
      if is_dict email then
        s <- py_get email "subject" (PStr "无主题") ;;
        f <- py_get email "from" (PStr "未知") ;;
        emit (EvField "subject" s) ;; emit (EvField "from" f)
      else ret tt) l = (l', Ok tt).
Proof.
  revert l. induction items as [|x items IH]; intros l; simpl.
  - eexists; reflexivity.
  - destruct x; unfold bind at 1; simpl; apply IH.
Qed.

(** [check_mailbox_emails] returns [retrieval_result], whatever the world. *)
Lemma check_mailbox_emails_result (w : world) (mailbox_id token : pyval) (l : list ev) :
  exists l',
    SimpleDebug.check_mailbox_emails w mailbox_id token l
    = (l', Ok (retrieval_result w mailbox_id)).
Proof.
  unfold SimpleDebug.check_mailbox_emails.
  match goal with
  | |- context [@bind pyval pyval (if _ then _ else _) ?K] => set (blk := K)
  end.
  assert (Hok : forall v l, sized v = true -> exists l', blk v l = (l', Ok v)).
  { intros v l0 Hs. subst blk. cbv beta.
    destruct v; try discriminate; unfold py_len, py_iter, bind at 1, ret at 1;
      unfold bind at 1, emit at 1; unfold bind at 1, ret at 1;
      unfold bind at 1;
      match goal with |- context [for_each ?xs ?f ?l1] =>
        destruct (listing_loop_ok xs l1) as [l2 E]; rewrite E end;
      unfold ret; eexists; reflexivity. }
  assert (Herr : forall v l, sized v = false -> blk v l = (l, Err TypeError)).
  { intros v l0 Hs. subst blk. cbv beta.
    destruct v; try discriminate; reflexivity. }
  clearbody blk.
  unfold try_except, http_call. rewrite bind_emit_eq.
  unfold retrieval_result, response_json, SimpleDebug.success_and_data, py_get, py_in_dict,
    py_getitem, bind, ret, raise.
  repeat (cbn; first
    [ match goal with
      | |- context [blk ?v ?l1] =>
          let Hs := fresh "Hs" in let E := fresh "E" in
          destruct (sized v) eqn:Hs;
          [destruct (Hok v l1 Hs) as [? E] | pose proof (Herr v l1 Hs) as E];
          rewrite E; clear E
      end
    | match goal with |- context [http ?w0 ?m ?u] => destruct (http w0 m u) end
    | match goal with |- context [status_code ?r =? 200] => destruct (status_code r =? 200) end
    | match goal with |- context [json_body ?r] => destruct (json_body r) as [[| | | | | ?d]|] end
    | match goal with |- context [dict_lookup ?d ?k] => destruct (dict_lookup d k) end
    | match goal with |- context [truthy ?s] => destruct (truthy s) end ]);
    eexists; reflexivity.
Qed.




Lemma count_smtp_app (l1 l2 : list ev) :
  count_smtp (l1 ++ l2) = (count_smtp l1 + count_smtp l2)%nat.
Proof.
  induction l1 as [|e l1 IH]; simpl; [reflexivity|].
  destruct e; simpl; rewrite ?IH; reflexivity.
Qed.

Lemma count_smtp_no_later (ex : list ev) :
  Forall (fun e => later_phase e = false) ex -> count_smtp ex = O.
Proof.
  induction 1 as [|e ex He _ IH]; simpl; [reflexivity|].
  destruct e; simpl in *; try discriminate; exact IH.
Qed.

Lemma wait_for_processing_log (l : list ev) :
  SimpleDebug.wait_for_processing l = (l ++ repeat (EvSleep 1) 10, Ok tt).
Proof.
  unfold SimpleDebug.wait_for_processing. simpl.
  unfold bind, sleep, emit, ret. repeat rewrite <- app_assoc. reflexivity.
Qed.

Lemma debug_send_ok (w : world) (to_address : pyval) (l : list ev) :
  count_smtp l = O -> session_ok w 0 = true ->
  SimpleDebug.send_test_email w to_address l
  = (l ++ [EvSmtp "localhost" 2525
             (mkMessage "debug-test@example.com" to_address "调试测试邮件"
                [("plain", SimpleDebug.debug_content w to_address)])], Ok true).
Proof.
  intros Hc Hs. unfold session_ok in Hs.
  unfold SimpleDebug.send_test_email, try_except, smtp_transaction, smtp_connect,
    smtp_do, bind, ret, raise.
  rewrite Hc.
  destruct (smtp w 0 Connect), (smtp w 0 Sendmail), (smtp w 0 Quit);
    try discriminate; reflexivity.
Qed.

(** ** C2: delivery verification in [simple_debug.py] *)

(** C2 (amended).  Once provisioning and the send succeed, [main] does not
    poll: it sleeps one second ten times, whatever the mailbox holds, and
    then calls the retrieval endpoint exactly once, with the mailbox's
    bearer token.  The injection, waiting and retrieval events of the run
    are exactly: the SMTP session, ten 1-second sleeps, one retrieval.  The
    run ends by reporting whether what the retrieval gave back,
    [retrieval_result], has a positive length [n]. *)
Theorem simple_debug_fixed_wait_single_retrieval (w : world) (a i t : pyval) :
  provision_ok w a i t -> session_ok w 0 = true ->
  exists log,
    SimpleDebug.main w [] = (log, Ok tt)
    /\ filter later_phase log
       = [EvSmtp "localhost" 2525 (debug_message w a)]
         ++ repeat (EvSleep 1) 10
         ++ [EvHttp "GET" (SimpleDebug.mail_url i) (Some [Lit "Bearer "; Val t])]
    /\ exists n pre,
         py_len (retrieval_result w i) [] = ([], Ok n)
         /\ log = pre ++ [EvField "received" (PBool (0 <? n))].
Proof.
  intros Hprov Hsess.
  destruct (check_services_ok w []) as (ex0 & Hcs & HP0). simpl in Hcs.
  unfold SimpleDebug.main.
  rewrite (bind_ok _ _ _ _ _ Hcs).
  rewrite (bind_ok _ _ _ _ _ (create_mailbox_some w a i t ex0 Hprov)).
  cbv beta iota. cbn [SimpleDebug.mb_address SimpleDebug.mb_mailboxId SimpleDebug.mb_token].
  assert (Hc : count_smtp (ex0 ++ [EvHttp "POST" generate_url None]) = O)
    by (rewrite count_smtp_app, (count_smtp_no_later ex0 HP0); reflexivity).
  rewrite (bind_ok _ _ _ _ _ (debug_send_ok w a _ Hc Hsess)).
  cbn [negb].
  rewrite (bind_ok _ _ _ _ _ (wait_for_processing_log _)).
  match goal with
  | |- context [bind (SimpleDebug.check_mailbox_emails w i t) _ ?l0] =>
      destruct (check_mailbox_emails_log w i t l0) as (ex & r & Hlog & HPex);
      destruct (check_mailbox_emails_runs w i t l0) as (ex' & [v|e] & Htot & _ & HQ);
      [|contradiction]; destruct HQ as [Hsz _];
      rewrite Htot in Hlog; injection Hlog as Hl' _; apply app_inv_head in Hl'; subst ex';
      rewrite (bind_ok _ _ _ _ _ Htot);
      destruct (check_mailbox_emails_result w i t l0) as [l1 Hres];
      rewrite Htot in Hres; injection Hres as _ Hv; rewrite <- Hv
  end.
  destruct v as [| | | s | vs | d]; try discriminate; unfold py_len, bind, emit, ret;
    eexists; (split; [reflexivity|]);
    (split;
     [ repeat rewrite filter_app; simpl;
       rewrite (filter_later_nil ex0 HP0), (filter_later_nil ex HPex); reflexivity
     | eexists; eexists; split; reflexivity ]).
Qed.

(** C2 (counterexample).  In a world where the mailbox holds the expected
    single message at every retrieval, [main] still waits the whole
    10-second budget before its first (and only) retrieval: it makes one
    retrieval request, not repeated polls that stop when the count is
    reached. *)
Theorem verifier_waits_full_budget :
  http ok_world "GET" (SimpleDebug.mail_url sample_id)
    = Ok (mkResponse 200 (Some (wrapped [msg1])))
  /\ snd (SimpleDebug.main ok_world []) = Ok tt
  /\ sleeps (before_retrieval (fst (SimpleDebug.main ok_world []))) = 10
  /\ length (filter is_retrieval (fst (SimpleDebug.main ok_world []))) = 1%nat
  /\ surfaced (fst (SimpleDebug.main ok_world [])) "emailCount" = Some (PInt 1).
Proof. vm_compute. repeat split. Qed.

Lemma simple_debug_fixed_wait_single_retrieval_witness :
  provision_ok ok_world sample_address sample_id sample_token
  /\ session_ok ok_world 0 = true
  /\ exists log,
       SimpleDebug.main ok_world [] = (log, Ok tt)
       /\ filter later_phase log
          = [EvSmtp "localhost" 2525 (debug_message ok_world sample_address)]
            ++ repeat (EvSleep 1) 10
            ++ [EvHttp "GET" (SimpleDebug.mail_url sample_id)
                  (Some [Lit "Bearer "; Val sample_token])]
       /\ exists n pre,
            py_len (retrieval_result ok_world sample_id) [] = ([], Ok n)
            /\ log = pre ++ [EvField "received" (PBool (0 <? n))].
Proof.
  assert (Hp : provision_ok ok_world sample_address sample_id sample_token).
  { do 4 eexists. repeat split; try reflexivity. right; reflexivity. }
  assert (Hs : session_ok ok_world 0 = true) by reflexivity.
  split; [exact Hp|]. split; [exact Hs|].
  apply simple_debug_fixed_wait_single_retrieval; [exact Hp | exact Hs].
Defined.

(** ** The injector of [scripts/send_test_email.py] *)

Lemma smtp_transaction_log (w : world) host port m (l : list ev) :
  smtp_transaction w host port m l
  = (l ++ [EvSmtp host port m],
     if session_ok w (count_smtp l) then Ok tt
     else match smtp w (count_smtp l) Connect, smtp w (count_smtp l) Sendmail,
                smtp w (count_smtp l) Quit with
          | Some e, _, _ | None, Some e, _ | None, None, Some e => Err e
          | None, None, None => Ok tt
          end).
Proof.
  unfold smtp_transaction, smtp_connect, smtp_do, session_ok, bind, ret, raise.
  destruct (smtp w (count_smtp l) Connect), (smtp w (count_smtp l) Sendmail),
    (smtp w (count_smtp l) Quit); reflexivity.
Qed.

Lemma try_transaction_log (w : world) host port m (l : list ev) :
  try_except (smtp_transaction w host port m ;; ret true) (fun _ => ret false) l
  = (l ++ [EvSmtp host port m], Ok (session_ok w (count_smtp l))).
Proof.
  unfold try_except, bind at 1. rewrite smtp_transaction_log.
  unfold session_ok.
  destruct (smtp w (count_smtp l) Connect), (smtp w (count_smtp l) Sendmail),
    (smtp w (count_smtp l) Quit); reflexivity.
Qed.

Lemma iteration_log (w : world) (a : SendTestEmailCli.args) (i : nat) (l : list ev) :
  count_smtp l = i ->
  SendTestEmailCli.iteration w a i l = (l ++ [cli_event a i], Ok (session_ok w i)).
Proof.
  intros Hc. unfold SendTestEmailCli.iteration, cli_event, cli_message.
  destruct (SendTestEmailCli.html a);
    unfold SendTestEmailCli.send_html_email, SendTestEmailCli.send_test_email;
    rewrite try_transaction_log, Hc; reflexivity.
Qed.

Lemma send_loop_log (w : world) (a : SendTestEmailCli.args) (m s : nat) :
  forall (l : list ev) (acc : Z),
  count_smtp l = s ->
  SendTestEmailCli.send_loop w a (seq s m) acc l
  = (l ++ map (cli_event a) (seq s m),
     Ok (acc + Z.of_nat (length (filter (session_ok w) (seq s m))))).
Proof.
  revert s. induction m as [|m IH]; intros s l acc Hc; simpl.
  - unfold ret. rewrite app_nil_r, Z.add_0_r. reflexivity.
  - unfold bind. rewrite (iteration_log w a s l Hc).
    rewrite IH.
    + rewrite <- app_assoc. simpl.
      destruct (session_ok w s); simpl; f_equal; f_equal; lia.
    + rewrite count_smtp_app, Hc. unfold cli_event. simpl. lia.
Qed.

Lemma cli_main_log (w : world) (a : SendTestEmailCli.args) :
  SendTestEmailCli.main w a []
  = (map (cli_event a) (seq 0 (Z.to_nat (SendTestEmailCli.multiple a)))
     ++ [EvField "success_count"
           (PInt (Z.of_nat (length (filter (session_ok w)
                                        (seq 0 (Z.to_nat (SendTestEmailCli.multiple a)))))))],
     Ok tt).
Proof.
  unfold SendTestEmailCli.main, bind at 1.
  rewrite (send_loop_log w a _ 0 [] 0 eq_refl). reflexivity.
Qed.

Lemma smtp_messages_app (l1 l2 : list ev) :
  smtp_messages (l1 ++ l2) = smtp_messages l1 ++ smtp_messages l2.
Proof.
  induction l1 as [|e l1 IH]; simpl; [reflexivity|]. destruct e; simpl; rewrite IH; reflexivity.
Qed.

Lemma smtp_messages_cli (a : SendTestEmailCli.args) (is : list nat) :
  smtp_messages (map (cli_event a) is) = map (cli_message a) is.
Proof. induction is as [|i is IH]; simpl; [reflexivity|]. rewrite IH. reflexivity. Qed.

Lemma cli_messages (w : world) (a : SendTestEmailCli.args) :
  smtp_messages (fst (SendTestEmailCli.main w a []))
  = map (cli_message a) (seq 0 (Z.to_nat (SendTestEmailCli.multiple a))).
Proof.
  rewrite cli_main_log. simpl. rewrite smtp_messages_app, smtp_messages_cli.
  simpl. apply app_nil_r.
Qed.

(** ** C3: injector iterations are independent *)

(** C3.  For every world and every command line with [--multiple n]: the
    run returns normally; iteration [i] (0-based) opens SMTP session [i]
    whether or not earlier sessions raised, so all [n] iterations are
    attempted in order; and the reported count is the number of iterations
    whose session went through connect, sendmail and quit without raising,
    hence between 0 and [n]. *)
Theorem injector_iterations_independent (w : world) (a : SendTestEmailCli.args) :
  let n := Z.to_nat (SendTestEmailCli.multiple a) in
  let count := Z.of_nat (length (filter (session_ok w) (seq 0 n))) in
  SendTestEmailCli.main w a []
  = (map (cli_event a) (seq 0 n) ++ [EvField "success_count" (PInt count)], Ok tt)
  /\ 0 <= count <= Z.of_nat n.
Proof.
  intros n count. split; [apply cli_main_log|].
  unfold count. split; [lia|].
  apply Nat2Z.inj_le. rewrite <- (length_seq n 0) at 2. apply filter_length_le.
Qed.

(** ** C6: subjects and senders of the injected messages *)

(** C6 (counterexample).  With [--html --multiple 2] both messages carry
    the same fixed subject, with no index; in plain mode with
    [--multiple 2] both messages carry the same sender. *)
Theorem injector_subjects_not_indexed_in_html :
  map m_subject (smtp_messages (fst (SendTestEmailCli.main quiet_world args_html2 [])))
    = ["HTML 格式测试邮件"; "HTML 格式测试邮件"]
  /\ map m_from (smtp_messages (fst (SendTestEmailCli.main quiet_world args_plain2 [])))
    = ["test@example.com"; "test@example.com"]
  /\ map m_subject (smtp_messages (fst (SendTestEmailCli.main quiet_world args_plain2 [])))
    = ["Test #1"; "Test #2"].
Proof. vm_compute. repeat split. Qed.

(** C6 (amended).  Message [i] (0-based) of a run goes to the target
    address.  In plain mode its sender is [test@example.com] and its subject
    is ["<subject> #<i+1>"] when [--multiple] is above 1 and the base subject
    unchanged otherwise; in HTML mode its sender is [html-test@example.com]
    and its subject the fixed ["HTML 格式测试邮件"], whatever the index. *)
Theorem injector_message_headers (w : world) (a : SendTestEmailCli.args) (i : nat) :
  (i < Z.to_nat (SendTestEmailCli.multiple a))%nat ->
  exists m,
    nth_error (smtp_messages (fst (SendTestEmailCli.main w a []))) i = Some m
    /\ m_to m = PStr (SendTestEmailCli.email a)
    /\ (SendTestEmailCli.html a = true ->
        m_from m = "html-test@example.com" /\ m_subject m = "HTML 格式测试邮件")
    /\ (SendTestEmailCli.html a = false ->
        m_from m = "test@example.com"
        /\ m_subject m = if SendTestEmailCli.multiple a >? 1
                         then String.append (SendTestEmailCli.subject a)
                                (String.append " #" (z_to_dec (Z.of_nat i + 1)))
                         else SendTestEmailCli.subject a).
Proof.
  intros Hi. rewrite cli_messages. exists (cli_message a i).
  split.
  - rewrite nth_error_map, nth_error_seq.
    destruct (Nat.ltb_spec i (Z.to_nat (SendTestEmailCli.multiple a))); [|lia].
    reflexivity.
  - unfold cli_message. destruct (SendTestEmailCli.html a); simpl.
    + repeat split; discriminate.
    + repeat split; discriminate.
Qed.

(** ** C9: HTML mode ignores [--subject] and [--content] *)

Lemma send_loop_html_ext (w : world) (a1 a2 : SendTestEmailCli.args) :
  SendTestEmailCli.html a1 = true -> SendTestEmailCli.html a2 = true ->
  SendTestEmailCli.email a1 = SendTestEmailCli.email a2 ->
  forall is acc l,
    SendTestEmailCli.send_loop w a1 is acc l = SendTestEmailCli.send_loop w a2 is acc l.
Proof.
  intros H1 H2 He is. induction is as [|i is IH]; intros acc l; simpl; [reflexivity|].
  unfold bind, SendTestEmailCli.iteration. rewrite H1, H2, He.
  destruct (SendTestEmailCli.send_html_email w (SendTestEmailCli.email a2) l) as [l' [s|e]];
    [apply IH | reflexivity].
Qed.

(** C9.  Two HTML-mode command lines that differ only in [--subject] and
    [--content] produce the same run (same messages, same SMTP sessions,
    same report), and every message of such a run is the fixed HTML
    message: sender [html-test@example.com], subject ["HTML 格式测试邮件"],
    fixed plain and HTML bodies, addressed to the target. *)
Theorem html_mode_ignores_subject_content (w : world) (a1 a2 : SendTestEmailCli.args) :
  SendTestEmailCli.html a1 = true ->
  SendTestEmailCli.html a2 = true ->
  SendTestEmailCli.email a1 = SendTestEmailCli.email a2 ->
  SendTestEmailCli.multiple a1 = SendTestEmailCli.multiple a2 ->
  SendTestEmailCli.main w a1 [] = SendTestEmailCli.main w a2 []
  /\ forall m, In m (smtp_messages (fst (SendTestEmailCli.main w a1 []))) ->
       m = SendTestEmailCli.html_message (SendTestEmailCli.email a1)
       /\ m_from m = "html-test@example.com"
       /\ m_subject m = "HTML 格式测试邮件".
Proof.
  intros H1 H2 He Hm. split.
  - unfold SendTestEmailCli.main. rewrite Hm. unfold bind at 1 2.
    rewrite (send_loop_html_ext w a1 a2 H1 H2 He). reflexivity.
  - intros m Hin. rewrite cli_messages in Hin.
    apply in_map_iff in Hin as (i & <- & _).
    unfold cli_message. rewrite H1. repeat split.
Qed.

Lemma injector_message_headers_witness :
  (1 < Z.to_nat (SendTestEmailCli.multiple args_plain2))%nat
  /\ exists m,
    nth_error (smtp_messages (fst (SendTestEmailCli.main quiet_world args_plain2 []))) 1
      = Some m
    /\ m_to m = PStr (SendTestEmailCli.email args_plain2)
    /\ (SendTestEmailCli.html args_plain2 = true ->
        m_from m = "html-test@example.com" /\ m_subject m = "HTML 格式测试邮件")
    /\ (SendTestEmailCli.html args_plain2 = false ->
        m_from m = "test@example.com"
        /\ m_subject m = if SendTestEmailCli.multiple args_plain2 >? 1
                         then String.append (SendTestEmailCli.subject args_plain2)
                                (String.append " #" (z_to_dec (Z.of_nat 1 + 1)))
                         else SendTestEmailCli.subject args_plain2).
Proof.
  split; [vm_compute; lia|].
  apply injector_message_headers. vm_compute. lia.
Defined.

Lemma html_mode_ignores_subject_content_witness :
  SendTestEmailCli.html args_html2 = true
  /\ SendTestEmailCli.html args_html_other = true
  /\ SendTestEmailCli.email args_html2 = SendTestEmailCli.email args_html_other
  /\ SendTestEmailCli.multiple args_html2 = SendTestEmailCli.multiple args_html_other
  /\ (SendTestEmailCli.main ok_world args_html2 [] = SendTestEmailCli.main ok_world args_html_other []
      /\ forall m, In m (smtp_messages (fst (SendTestEmailCli.main ok_world args_html2 []))) ->
           m = SendTestEmailCli.html_message (SendTestEmailCli.email args_html2)
           /\ m_from m = "html-test@example.com"
           /\ m_subject m = "HTML 格式测试邮件").
Proof.
  split; [reflexivity|]. split; [reflexivity|]. split; [reflexivity|]. split; [reflexivity|].
  apply html_mode_ignores_subject_content; reflexivity.
Defined.

Ltac split_on H :=
  match type of H with
  | context [http ?w ?m ?u] => destruct (http w m u) eqn:?
  | context [status_code ?r =? ?n] => destruct (status_code r =? n) eqn:?
  | context [json_body ?r] => destruct (json_body r) eqn:?
  | context [dict_lookup ?d ?k] => destruct (dict_lookup d k) eqn:?
  | context [truthy ?s] => destruct (truthy s) eqn:?
  | context [match ?v with PNone => _ | _ => _ end] => is_var v; destruct v
  end.

(** ** C5: the identifier format check is non-fatal *)

Lemma test_mailbox_id_format_success (w : world) (l : list ev)
    (info : WebsocketValidation.mailbox_info) :
  snd (WebsocketValidation.test_mailbox_id_format w l) = Ok (Some info) ->
  exists r d s data sid token address n tp,
    http w "POST" generate_url = Ok r
    /\ (status_code r = 200 \/ status_code r = 201)
    /\ json_body r = Some (PDict d)
    /\ dict_lookup d "success" = Some s /\ truthy s = true
    /\ dict_lookup d "data" = Some (PDict data)
    /\ dict_lookup data "id" = Some (PStr sid)
    /\ dict_lookup data "token" = Some token
    /\ dict_lookup data "address" = Some address
    /\ sliceable token = true
    /\ info = WebsocketValidation.mkInfo (PStr sid) token address
    /\ WebsocketValidation.test_mailbox_id_format w l
       = (l ++ [EvHttp "POST" generate_url None; EvField "address" address;
                EvField "id" (PStr sid); EvField "idLength" n; EvField "token" tp;
                EvIdFormat (WebsocketValidation.mongo_id_match sid)],
          Ok (Some info)).
Proof.
  unfold WebsocketValidation.test_mailbox_id_format, http_call, response_json, py_get,
    py_getitem, py_len, py_slice_to, WebsocketValidation.re_match_mongo, generate_url.
  unfold try_except, bind, emit, ret, raise.
  intros H.
  repeat (cbn in H; try discriminate; split_on H).
  all: cbn in H; try discriminate.
  all: injection H as <-.
  all: do 9 eexists; split; [reflexivity|].
  all: split; [first [left; apply Z.eqb_eq; assumption | right; apply Z.eqb_eq; assumption]|].
  all: repeat (split; [eassumption|]).
  all: split; [reflexivity|]; split; [reflexivity|].
  all: cbn; rewrite ?Heqb, ?Heqb1, ?Heqo, ?Heqo0, ?Heqb0, ?Heqo1, ?Heqo2, ?Heqo3, ?Heqo4; cbn.
  all: rewrite <- !app_assoc; reflexivity.
Qed.

(** C5. For every successfully provisioned mailbox (status 200 or 201, a
    truthy [success], a [data] object holding a string [id], a sliceable
    [token] and an [address]), the validator tests the identifier against
    [^[0-9a-fA-F]{24}$] and records the outcome as its last event; it returns
    the same (identifier, token, address) triple whatever that outcome, and
    the run continues to writing the test page. *)
Theorem id_format_check_non_fatal (w : world) (r : response)
    (d data : list (string * pyval)) (s : pyval) (sid : string) (token address : pyval) :
  http w "POST" generate_url = Ok r ->
  (status_code r = 200 \/ status_code r = 201) ->
  json_body r = Some (PDict d) ->
  dict_lookup d "success" = Some s -> truthy s = true ->
  dict_lookup d "data" = Some (PDict data) ->
  dict_lookup data "id" = Some (PStr sid) ->
  dict_lookup data "token" = Some token -> sliceable token = true ->
  dict_lookup data "address" = Some address ->
  exists tp,
    let pre := [EvHttp "POST" generate_url None; EvField "address" address;
                EvField "id" (PStr sid);
                EvField "idLength" (PInt (Z.of_nat (String.length sid)));
                EvField "token" tp] in
    WebsocketValidation.test_mailbox_id_format w []
    = (pre ++ [EvIdFormat (WebsocketValidation.mongo_id_match sid)],
       Ok (Some (WebsocketValidation.mkInfo (PStr sid) token address)))
    /\ WebsocketValidation.main w []
       = (pre ++ [EvIdFormat (WebsocketValidation.mongo_id_match sid);
                  EvWriteFile "scripts/ws/test_websocket_validation.html"],
          match write_raises w with Some e => Err e | None => Ok tt end).
Proof.
  intros Hr Hst Hj Hs Hts Hd Hid Htok Hsl Haddr.
  assert (Hb : orb (status_code r =? 200) (status_code r =? 201) = true)
    by (destruct Hst as [-> | ->]; reflexivity).
  destruct token as [| | | t | t | t]; try discriminate Hsl;
  [exists (PStr (substring 0 20 t)) | exists (PList (firstn 20 t))];
  unfold WebsocketValidation.main, WebsocketValidation.test_mailbox_id_format,
    WebsocketValidation.create_websocket_test_html, write_file, http_call,
    response_json, py_get, py_getitem, py_len, py_slice_to,
    WebsocketValidation.re_match_mongo, generate_url in *;
  unfold try_except, bind, emit, ret, raise; cbn;
  rewrite Hr; cbn; rewrite Hb, Hj; cbn; rewrite Hs, Hts; cbn; rewrite Hd; cbn;
  rewrite Hid, Htok, Haddr; cbn;
  (split; [reflexivity | destruct (write_raises w); reflexivity]).
Qed.

Lemma id_format_check_non_fatal_witness :
  WebsocketValidation.mongo_id_match "mbx-42" = false
  /\ exists tp,
    let pre := [EvHttp "POST" generate_url None; EvField "address" sample_address;
                EvField "id" (PStr "mbx-42");
                EvField "idLength" (PInt (Z.of_nat (String.length "mbx-42")));
                EvField "token" tp] in
    WebsocketValidation.test_mailbox_id_format odd_id_world []
    = (pre ++ [EvIdFormat (WebsocketValidation.mongo_id_match "mbx-42")],
       Ok (Some (WebsocketValidation.mkInfo (PStr "mbx-42") sample_token sample_address)))
    /\ WebsocketValidation.main odd_id_world []
       = (pre ++ [EvIdFormat (WebsocketValidation.mongo_id_match "mbx-42");
                  EvWriteFile "scripts/ws/test_websocket_validation.html"],
          match write_raises odd_id_world with Some e => Err e | None => Ok tt end).
Proof.
  split; [reflexivity|].
  apply (id_format_check_non_fatal odd_id_world
           (mkResponse 201 (Some (PDict odd_id_envelope)))
           odd_id_envelope odd_id_data (PBool true) "mbx-42" sample_token sample_address);
    try reflexivity.
  right; reflexivity.
Defined.

Lemma py_get_sub (d m : list (string * pyval)) (k : string) :
  sub_object d k = Some m -> py_get (PDict d) k (PDict []) = ret (PDict m).
Proof.
  unfold sub_object, py_get.
  destruct (dict_lookup d k) as [[| | | | | m']|]; intros H; try discriminate;
    injection H as <-; reflexivity.
Qed.

Lemma py_get_field (m : list (string * pyval)) (k : string) (dflt : pyval) :
  py_get (PDict m) k dflt = ret (field_or m k dflt).
Proof. reflexivity. Qed.

(** C7 (counterexample).  When every health endpoint answers 200 with the
    empty object, no counter or flag is present, yet the prober prints
    concrete values for them: running [False], zero clients, zero
    subscriptions, unhealthy, zero mails and broadcasts; only the port gets
    the sentinel ["unknown"].  The backend check prints [None] for both of
    its fields. *)
Theorem health_prober_fabricates_defaults :
  let log := fst (SimpleDebug.check_services (retrieval_world (PDict [])) []) in
  surfaced log "port" = Some (PStr "unknown")
  /\ surfaced log "isRunning" = Some (PBool false)
  /\ surfaced log "connectedClients" = Some (PInt 0)
  /\ surfaced log "totalSubscriptions" = Some (PInt 0)
  /\ surfaced log "isHealthy" = Some (PBool false)
  /\ surfaced log "totalMails" = Some (PInt 0)
  /\ surfaced log "successfulBroadcasts" = Some (PInt 0)
  /\ surfaced log "failedBroadcasts" = Some (PInt 0)
  /\ surfaced (fst (CurrentSetup.check_backend_status (retrieval_world (PDict [])) []))
       "port" = Some PNone.
Proof. vm_compute. repeat split. Qed.

(** C7 (amended).  Each probe is read on its own response.  For the
    endpoint probed for a service answering 200 with a JSON object whose
    subsystem entry is an object or absent, [check_services] prints each
    present field with its actual value and a fixed default for each absent
    one: port ["unknown"], running [False], healthy [False], every counter
    [0]; whenever [/health] answers and [/health/mail] answers 200 with such
    an object, [check_backend_status] prints the port and running flag of
    [mailService], [None] where absent. *)
Theorem health_fields_surfaced_with_defaults (w : world) (l : list ev) :
  (forall (url : string) (r : response) (d mail : list (string * pyval)),
     http w "GET" [Lit url] = Ok r ->
     status_code r = 200 ->
     json_body r = Some (PDict d) ->
     sub_object d "mailService" = Some mail ->
     SimpleDebug.check_one_service w "邮件服务" url l
     = (l ++ [EvHttp "GET" [Lit url] None;
              EvField "isRunning" (field_or mail "isRunning" (PBool false));
              EvField "port" (field_or mail "port" (PStr "unknown"))], Ok tt))
  /\ (forall (url : string) (r : response) (d ws : list (string * pyval)),
     http w "GET" [Lit url] = Ok r ->
     status_code r = 200 ->
     json_body r = Some (PDict d) ->
     sub_object d "websocket" = Some ws ->
     SimpleDebug.check_one_service w "WebSocket服务" url l
     = (l ++ [EvHttp "GET" [Lit url] None;
              EvField "connectedClients" (field_or ws "connectedClients" (PInt 0));
              EvField "totalSubscriptions" (field_or ws "totalSubscriptions" (PInt 0))],
        Ok tt))
  /\ (forall (url : string) (r : response) (d integ : list (string * pyval)),
     http w "GET" [Lit url] = Ok r ->
     status_code r = 200 ->
     json_body r = Some (PDict d) ->
     sub_object d "integration" = Some integ ->
     SimpleDebug.check_one_service w "集成服务" url l
     = (l ++ [EvHttp "GET" [Lit url] None;
              EvField "isHealthy" (field_or integ "isHealthy" (PBool false));
              EvField "totalMails" (field_or integ "totalMails" (PInt 0));
              EvField "successfulBroadcasts" (field_or integ "successfulBroadcasts" (PInt 0));
              EvField "failedBroadcasts" (field_or integ "failedBroadcasts" (PInt 0))],
        Ok tt))
  /\ (forall (r0 r : response) (d mail : list (string * pyval)),
     http w "GET" [Lit "http://localhost:3001/health"] = Ok r0 ->
     http w "GET" [Lit "http://localhost:3001/health/mail"] = Ok r ->
     status_code r = 200 ->
     json_body r = Some (PDict d) ->
     sub_object d "mailService" = Some mail ->
     CurrentSetup.check_backend_status w l
     = (l ++ [EvHttp "GET" [Lit "http://localhost:3001/health"] None;
              EvHttp "GET" [Lit "http://localhost:3001/health/mail"] None;
              EvField "port" (field_or mail "port" PNone);
              EvField "isRunning" (field_or mail "isRunning" PNone)], Ok tt)).
Proof.
  split; [|split; [|split]].
  1-3: intros url r d sub Hurl Hst Hj Hsub;
    unfold SimpleDebug.check_one_service, SimpleDebug.show_service_info, http_call,
      response_json, try_except, bind, emit;
    rewrite Hurl; cbn -[py_get]; rewrite Hst; cbn -[py_get]; rewrite Hj;
    unfold ret; cbn -[py_get];
    rewrite (py_get_sub _ _ _ Hsub); unfold ret; cbn -[py_get];
    rewrite !py_get_field; unfold ret; cbn;
    rewrite <- !app_assoc; reflexivity.
  intros r0 r d mail H0 Hmail Hst Hj Hm.
  unfold CurrentSetup.check_backend_status, http_call, response_json, try_except, bind, emit.
  rewrite H0; cbn -[py_get]; rewrite Hmail; cbn -[py_get]; rewrite Hst; cbn -[py_get];
    rewrite Hj.
  unfold ret; cbn -[py_get].
  rewrite (py_get_sub _ _ _ Hm); unfold ret; cbn -[py_get].
  rewrite !py_get_field; unfold ret; cbn.
  rewrite <- !app_assoc; reflexivity.
Qed.


Lemma health_fields_surfaced_with_defaults_witness :
  SimpleDebug.check_one_service health_world "邮件服务"
    "http://localhost:3001/api/../health/mail" []
  = ([EvHttp "GET" [Lit "http://localhost:3001/api/../health/mail"] None;
      EvField "isRunning" (PBool true); EvField "port" (PInt 2525)], Ok tt)
  /\ SimpleDebug.check_one_service health_world "WebSocket服务"
       "http://localhost:3001/api/../health/websocket" []
  = ([EvHttp "GET" [Lit "http://localhost:3001/api/../health/websocket"] None;
      EvField "connectedClients" (PInt 3); EvField "totalSubscriptions" (PInt 0)], Ok tt)
  /\ SimpleDebug.check_one_service health_world "集成服务"
       "http://localhost:3001/api/../health/integration" []
  = ([EvHttp "GET" [Lit "http://localhost:3001/api/../health/integration"] None;
      EvField "isHealthy" (PBool false); EvField "totalMails" (PInt 7);
      EvField "successfulBroadcasts" (PInt 0); EvField "failedBroadcasts" (PInt 0)], Ok tt)
  /\ CurrentSetup.check_backend_status health_world []
  = ([EvHttp "GET" [Lit "http://localhost:3001/health"] None;
      EvHttp "GET" [Lit "http://localhost:3001/health/mail"] None;
      EvField "port" (PInt 2525); EvField "isRunning" PNone], Ok tt).
Proof.
  destruct (health_fields_surfaced_with_defaults health_world []) as (H1 & H2 & H3 & H4).
  split; [|split; [|split]].
  - apply (H1 "http://localhost:3001/api/../health/mail"
             (mkResponse 200 (Some (PDict [("mailService",
                PDict [("isRunning", PBool true); ("port", PInt 2525)])])))
             [("mailService", PDict [("isRunning", PBool true); ("port", PInt 2525)])]
             [("isRunning", PBool true); ("port", PInt 2525)]); reflexivity.
  - apply (H2 "http://localhost:3001/api/../health/websocket"
             (mkResponse 200 (Some (PDict [("websocket", PDict [("connectedClients", PInt 3)])])))
             [("websocket", PDict [("connectedClients", PInt 3)])]
             [("connectedClients", PInt 3)]); reflexivity.
  - apply (H3 "http://localhost:3001/api/../health/integration"
             (mkResponse 200 (Some (PDict [("integration", PDict [("totalMails", PInt 7)])])))
             [("integration", PDict [("totalMails", PInt 7)])]
             [("totalMails", PInt 7)]); reflexivity.
  - apply (H4 (mkResponse 200 (Some (PDict [("status", PStr "ok")])))
             (mkResponse 200 (Some (PDict [("mailService", PDict [("port", PInt 2525)])])))
             [("mailService", PDict [("port", PInt 2525)])]
             [("port", PInt 2525)]); reflexivity.
Defined.

(** ** Computations that return normally *)

Lemma nr_ret {A} (R : A -> Prop) a : R a -> nr R (ret a).
Proof. intros HR l. exists l, a. auto. Qed.

Lemma nr_emit e : nr (fun _ => True) (emit e).
Proof. intros l. exists (l ++ [e]), tt. auto. Qed.

Lemma nr_bind {A B} (R1 : A -> Prop) (R2 : B -> Prop) m k :
  nr R1 m -> (forall a, R1 a -> nr R2 (k a)) -> nr R2 (bind m k).
Proof.
  intros Hm Hk l. unfold bind.
  destruct (Hm l) as (l' & a & -> & Ha). apply (Hk a Ha l').
Qed.

Lemma nr_try {A} (body : M A) h :
  (forall e, nr (fun _ => True) (h e)) -> nr (fun _ => True) (try_except body h).
Proof.
  intros Hh l. unfold try_except.
  destruct (body l) as [l' [a|e]].
  - exists l', a. auto.
  - apply Hh.
Qed.

Lemma nr_for_each {A} (xs : list A) f :
  (forall x, nr (fun _ => True) (f x)) -> nr (fun _ => True) (for_each xs f).
Proof.
  intros Hf. induction xs as [|x xs IH]; simpl.
  - apply nr_ret. exact I.
  - apply nr_bind with (R1 := fun _ => True); [apply Hf | intros [] _; exact IH].
Qed.

Lemma runs_nr {A} (P : ev -> Prop) (R : A -> Prop) m :
  runs P (ok_and R) m -> nr R m.
Proof.
  intros H l. destruct (H l) as (ex & [a|e] & E & _ & HR); [|contradiction].
  exists (l ++ ex), a. auto.
Qed.

Lemma nr_exit_code (m : M unit) : nr (fun _ => True) m -> exit_code (snd (m [])) = 0.
Proof. intros H. destruct (H []) as (l' & [] & -> & _). reflexivity. Qed.

Ltac nr_tac :=
  repeat first
    [ apply nr_ret; exact I
    | apply nr_emit
    | apply nr_try; intro
    | apply nr_for_each; intro
    | match goal with |- nr _ (let '(_, _) := ?x in _) => destruct x end
    | apply nr_bind with (R1 := fun _ => True); [ | intros ? _ ] ].

Lemma read_input_nr (w : world) : input_raises w = None -> nr (fun _ => True) (read_input w).
Proof.
  intros H. unfold read_input. rewrite H.
  apply nr_bind with (R1 := fun _ => True); [apply nr_emit | intros; apply nr_ret; exact I].
Qed.

Lemma write_file_nr (w : world) path :
  write_raises w = None -> nr (fun _ => True) (write_file w path).
Proof.
  intros H. unfold write_file. rewrite H.
  apply nr_bind with (R1 := fun _ => True); [apply nr_emit | intros; apply nr_ret; exact I].
Qed.

Lemma simple_debug_main_nr (w : world) : nr (fun _ => True) (SimpleDebug.main w).
Proof.
  unfold SimpleDebug.main, SimpleDebug.check_services, SimpleDebug.check_one_service,
    SimpleDebug.create_mailbox, SimpleDebug.send_test_email.
  apply nr_bind with (R1 := fun _ => True); [nr_tac | intros _ _].
  apply nr_bind with (R1 := fun _ => True); [nr_tac | intros [mb|] _]; [|apply nr_emit].
  apply nr_bind with (R1 := fun _ => True); [nr_tac | intros ok _].
  destruct (negb ok); [apply nr_emit|].
  apply nr_bind with (R1 := fun _ => True);
    [unfold SimpleDebug.wait_for_processing, sleep; nr_tac | intros _ _].
  apply nr_bind with (R1 := fun v => sized v = true).
  { eapply runs_nr, runs_weaken; [apply check_mailbox_emails_runs|].
    intros [v|e]; simpl; tauto. }
  intros v Hv. unfold py_len.
  destruct v; try discriminate Hv; nr_tac.
Qed.

Lemma websocket_validation_main_nr (w : world) :
  write_raises w = None -> nr (fun _ => True) (WebsocketValidation.main w).
Proof.
  intros Hw l. unfold WebsocketValidation.main, bind at 1.
  destruct (WebsocketValidation.test_mailbox_id_format w l) as [l' [[info|]|e]] eqn:E.
  - assert (Hs : snd (WebsocketValidation.test_mailbox_id_format w l) = Ok (Some info))
      by (rewrite E; reflexivity).
    destruct (test_mailbox_id_format_success w l info Hs)
      as (r & d & s & data & sid & token & address & n & tp & _ & _ & _ & _ & _ & _ & _ &
          _ & _ & Hsl & -> & _).
    unfold WebsocketValidation.create_websocket_test_html, py_slice_to; simpl.
    destruct token; try discriminate Hsl;
      (apply nr_bind with (R1 := fun _ => True); [nr_tac | intros _ _; apply write_file_nr, Hw]).
  - exists (l' ++ [EvTerminated]), tt. auto.
  - exfalso. unfold WebsocketValidation.test_mailbox_id_format, try_except in E.
    match type of E with
    | (let (_, _) := ?x in _) = _ => destruct x as [l0 [a|e0]]
    end; discriminate E.
Qed.

(** C8.  Whatever the network does (every HTTP call, SMTP session or
    response body, failing or not), each of the eight scripts returns
    normally, so the process exits with status 0; failures only show up in
    the printed output.  The local operations that are not verification
    steps, reading the operator's Enter key and writing the HTML page, are
    taken to succeed. *)
Theorem scripts_exit_zero (w : world) (a : SendTestEmailCli.args) :
  input_raises w = None -> write_raises w = None ->
  exit_code (snd (SimpleDebug.main w [])) = 0
  /\ exit_code (snd (SendTestEmailCli.main w a [])) = 0
  /\ exit_code (snd (WebsocketValidation.main w [])) = 0
  /\ exit_code (snd (ManualWebsocket.main w [])) = 0
  /\ exit_code (snd (FrontendWebsocket.main w [])) = 0
  /\ exit_code (snd (CurrentSetup.main w [])) = 0
  /\ exit_code (snd (SendTestMail.send_test_email w [])) = 0
  /\ exit_code (snd (ExternalEmail.send_external_email w [])) = 0.
Proof.
  intros Hin Hw.
  split; [apply nr_exit_code, simple_debug_main_nr|].
  split; [rewrite cli_main_log; reflexivity|].
  split; [apply nr_exit_code, websocket_validation_main_nr, Hw|].
  split.
  { apply nr_exit_code. unfold ManualWebsocket.main, ManualWebsocket.send_one.
    apply nr_bind with (R1 := fun _ => True); [apply read_input_nr, Hin | intros _ _; nr_tac]. }
  split.
  { apply nr_exit_code.
    unfold FrontendWebsocket.main, FrontendWebsocket.create_step,
      FrontendWebsocket.send_one, FrontendWebsocket.integration_step.
    apply nr_bind with (R1 := fun _ => True); [nr_tac | intros [[[addr id] tok]|] _];
      [|nr_tac].
    apply nr_bind with (R1 := fun _ => True); [apply read_input_nr, Hin | intros _ _; nr_tac]. }
  split.
  { apply nr_exit_code.
    unfold CurrentSetup.main, CurrentSetup.check_backend_status,
      CurrentSetup.test_with_127_domain, CurrentSetup.test_with_nnu_domain,
      CurrentSetup.test_with_domain.
    nr_tac. }
  split.
  { apply nr_exit_code. unfold SendTestMail.send_test_email. nr_tac. }
  apply nr_exit_code. unfold ExternalEmail.send_external_email. nr_tac.
Qed.

Lemma scripts_exit_zero_witness :
  input_raises ok_world = None /\ write_raises ok_world = None
  /\ exit_code (snd (SimpleDebug.main ok_world [])) = 0
  /\ exit_code (snd (SendTestEmailCli.main ok_world args_plain2 [])) = 0
  /\ exit_code (snd (WebsocketValidation.main ok_world [])) = 0
  /\ exit_code (snd (ManualWebsocket.main ok_world [])) = 0
  /\ exit_code (snd (FrontendWebsocket.main ok_world [])) = 0
  /\ exit_code (snd (CurrentSetup.main ok_world [])) = 0
  /\ exit_code (snd (SendTestMail.send_test_email ok_world [])) = 0
  /\ exit_code (snd (ExternalEmail.send_external_email ok_world [])) = 0.
Proof.
  split; [reflexivity|]. split; [reflexivity|].
  apply (scripts_exit_zero ok_world args_plain2); reflexivity.
Defined.

(** * Further properties of the scripts *)

(** ** [scripts/send_test_email.py] *)

(** [--multiple] zero or negative: [range] is empty, so no SMTP session
    is opened and the reported count is 0. *)
Theorem cli_nonpositive_multiple_sends_nothing (w : world) (a : SendTestEmailCli.args) :
  SendTestEmailCli.multiple a <= 0 ->
  SendTestEmailCli.main w a [] = ([EvField "success_count" (PInt 0)], Ok tt).
Proof.
  intros Hm. rewrite cli_main_log.
  replace (Z.to_nat (SendTestEmailCli.multiple a)) with O by lia.
  reflexivity.
Qed.

(** In plain mode the body of the [i]-th message (0-based) is the
    [--content] text, followed by a blank line and ["邮件编号: i+1/n"] when
    [n > 1]; it is a single [text/plain] part. *)
Theorem cli_plain_body_numbered (w : world) (a : SendTestEmailCli.args) (i : nat) :
  SendTestEmailCli.html a = false ->
  (i < Z.to_nat (SendTestEmailCli.multiple a))%nat ->
  exists m,
    nth_error (smtp_messages (fst (SendTestEmailCli.main w a []))) i = Some m
    /\ m_parts m
       = [("plain",
           [Lit (if SendTestEmailCli.multiple a >? 1
                 then String.append (SendTestEmailCli.content a)
                        (String.append (String.append nl nl)
                           (String.append "邮件编号: "
                              (String.append (z_to_dec (Z.of_nat i + 1))
                                 (String.append "/" (z_to_dec (SendTestEmailCli.multiple a))))))
                 else SendTestEmailCli.content a)])].
Proof.
  intros Hh Hi. rewrite cli_messages. exists (cli_message a i).
  split.
  - rewrite nth_error_map, nth_error_seq.
    destruct (Nat.ltb_spec i (Z.to_nat (SendTestEmailCli.multiple a))); [|lia].
    reflexivity.
  - unfold cli_message. rewrite Hh. reflexivity.
Qed.

(** Both send functions of the injector open one SMTP session to
    [localhost:1025], never raise, and return [True] exactly when connect,
    sendmail and quit of that session all succeed. *)
Theorem cli_send_reports_session (w : world) (to subject content : string) (l : list ev) :
  SendTestEmailCli.send_test_email w to subject content l
  = (l ++ [EvSmtp "localhost" 1025 (SendTestEmailCli.plain_message to subject content)],
     Ok (session_ok w (count_smtp l)))
  /\ SendTestEmailCli.send_html_email w to l
  = (l ++ [EvSmtp "localhost" 1025 (SendTestEmailCli.html_message to)],
     Ok (session_ok w (count_smtp l))).
Proof.
  unfold SendTestEmailCli.send_test_email, SendTestEmailCli.send_html_email.
  rewrite !try_transaction_log. split; reflexivity.
Qed.

Lemma cli_nonpositive_multiple_sends_nothing_witness :
  SendTestEmailCli.multiple args_none <= 0
  /\ SendTestEmailCli.main ok_world args_none [] = ([EvField "success_count" (PInt 0)], Ok tt).
Proof.
  split; [vm_compute; discriminate|].
  apply cli_nonpositive_multiple_sends_nothing. vm_compute. discriminate.
Defined.

Lemma cli_plain_body_numbered_witness :
  SendTestEmailCli.html args_plain2 = false
  /\ (1 < Z.to_nat (SendTestEmailCli.multiple args_plain2))%nat
  /\ exists m,
    nth_error (smtp_messages (fst (SendTestEmailCli.main ok_world args_plain2 []))) 1 = Some m
    /\ m_parts m
       = [("plain",
           [Lit (if SendTestEmailCli.multiple args_plain2 >? 1
                 then String.append (SendTestEmailCli.content args_plain2)
                        (String.append (String.append nl nl)
                           (String.append "邮件编号: "
                              (String.append (z_to_dec (Z.of_nat 1 + 1))
                                 (String.append "/" (z_to_dec (SendTestEmailCli.multiple args_plain2))))))
                 else SendTestEmailCli.content args_plain2)])].
Proof.
  split; [reflexivity|]. split; [vm_compute; lia|].
  apply cli_plain_body_numbered; [reflexivity | vm_compute; lia].
Defined.

(** ** [scripts/ws/simple_debug.py] *)

Lemma debug_send_log (w : world) (to_address : pyval) (l : list ev) :
  SimpleDebug.send_test_email w to_address l
  = (l ++ [EvSmtp "localhost" 2525 (debug_message w to_address)],
     Ok (session_ok w (count_smtp l))).
Proof. unfold SimpleDebug.send_test_email. rewrite try_transaction_log. reflexivity. Qed.

Lemma listing_loop_log (msgs : list pyval) (l : list ev) :
  for_each msgs (fun email =>
    if is_dict email then
      s <- py_get email "subject" (PStr "无主题") ;;
      f <- py_get email "from" (PStr "未知") ;;
      emit (EvField "subject" s) ;; emit (EvField "from" f)
    else ret tt) l
  = (l ++ flat_map listing_events msgs, Ok tt).
Proof.
  revert l. induction msgs as [|x msgs IH]; intros l; simpl.
  - unfold ret. rewrite app_nil_r. reflexivity.
  - unfold bind at 1.
    destruct x; simpl; unfold ret, bind, emit; simpl; rewrite IH; simpl;
      rewrite <- ?app_assoc; reflexivity.
Qed.

(** A successful provisioning (status 200 or 201, truthy [success], a
    [data] object with [address], [id] and [token]) gives the mailbox
    record [{address, mailboxId: id, token}] after the single POST. *)
Theorem create_mailbox_returns_envelope (w : world) (a i t : pyval) (l : list ev) :
  provision_ok w a i t ->
  SimpleDebug.create_mailbox w l
  = (l ++ [EvHttp "POST" generate_url None], Ok (Some (SimpleDebug.mkMailbox a i t))).
Proof. apply create_mailbox_some. Qed.

(** When the retrieval call raises or answers with a status other than 200,
    [check_mailbox_emails] returns the empty list without printing a
    count. *)
Theorem check_mailbox_emails_failure_empty (w : world) (i t : pyval) (l : list ev) :
  match http w "GET" (SimpleDebug.mail_url i) with
  | Ok r => status_code r <> 200
  | Err _ => True
  end ->
  SimpleDebug.check_mailbox_emails w i t l
  = (l ++ [EvHttp "GET" (SimpleDebug.mail_url i) (Some [Lit "Bearer "; Val t])], Ok (PList [])).
Proof.
  intros H. unfold SimpleDebug.check_mailbox_emails, try_except, http_call, bind, emit.
  destruct (http w "GET" (SimpleDebug.mail_url i)) as [r|e]; unfold ret, raise; simpl;
    [|reflexivity].
  apply Z.eqb_neq in H. rewrite H. reflexivity.
Qed.

(** For a 200 wrapped envelope whose [data] is a list of [n] items, the
    listing prints the count [n], then the subject and sender of every
    dict item (["无主题"] and ["未知"] when absent) and skips other
    items; the list is returned unchanged. *)
Theorem check_mailbox_emails_listing (w : world) (i t : pyval) (l : list ev)
    (r : response) (d : list (string * pyval)) (s : pyval) (msgs : list pyval) :
  http w "GET" (SimpleDebug.mail_url i) = Ok r ->
  status_code r = 200 ->
  json_body r = Some (PDict d) ->
  dict_lookup d "success" = Some s -> truthy s = true ->
  dict_lookup d "data" = Some (PList msgs) ->
  SimpleDebug.check_mailbox_emails w i t l
  = (l ++ [EvHttp "GET" (SimpleDebug.mail_url i) (Some [Lit "Bearer "; Val t]);
           EvField "emailCount" (PInt (Z.of_nat (length msgs)))]
       ++ flat_map listing_events msgs,
     Ok (PList msgs)).
Proof.
  intros Hr Hst Hj Hs Ht Hd.
  unfold SimpleDebug.check_mailbox_emails, try_except, http_call.
  rewrite bind_emit_eq. unfold bind at 1. rewrite Hr. unfold ret at 1.
  cbv beta iota. rewrite Hst. cbn [Z.eqb Pos.eqb].
  unfold response_json. rewrite Hj.
  unfold SimpleDebug.success_and_data, py_get, py_in_dict, py_getitem, py_len, py_iter.
  unfold bind at 1. unfold ret at 1. cbv beta iota.
  unfold bind at 1. unfold bind at 1. unfold ret at 1. cbv beta iota.
  rewrite Hs, Ht, Hd.
  unfold bind, emit, ret. cbv beta iota.
  rewrite listing_loop_log. rewrite <- !app_assoc. reflexivity.
Qed.

(** When the send fails (connect, sendmail or quit raises), [main] prints
    the termination message right after the SMTP session: it never waits
    and never calls the retrieval endpoint. *)
Theorem simple_debug_send_failure_terminates (w : world) (a i t : pyval) :
  provision_ok w a i t -> session_ok w 0 = false ->
  exists pre,
    SimpleDebug.main w []
    = (pre ++ [EvHttp "POST" generate_url None;
               EvSmtp "localhost" 2525 (debug_message w a); EvTerminated], Ok tt)
    /\ filter later_phase pre = [].
Proof.
  intros Hprov Hsess.
  destruct (check_services_ok w []) as (ex0 & Hcs & HP0). simpl in Hcs.
  unfold SimpleDebug.main.
  rewrite (bind_ok _ _ _ _ _ Hcs).
  rewrite (bind_ok _ _ _ _ _ (create_mailbox_some w a i t ex0 Hprov)).
  cbv beta iota. cbn [SimpleDebug.mb_address SimpleDebug.mb_mailboxId SimpleDebug.mb_token].
  assert (Hc : count_smtp (ex0 ++ [EvHttp "POST" generate_url None]) = O)
    by (rewrite count_smtp_app, (count_smtp_no_later ex0 HP0); reflexivity).
  rewrite (bind_ok _ _ _ _ _ (debug_send_log w a _)), Hc, Hsess.
  exists ex0. split; [|apply filter_later_nil, HP0].
  cbn [negb]. unfold emit. rewrite <- !app_assoc. reflexivity.
Qed.

Lemma try_bind_emit {A B} (e : ev) (f : unit -> M A) (k : A -> M B) h l :
  try_except (bind (bind (emit e) f) k) h l = try_except (bind (f tt) k) h (l ++ [e]).
Proof. reflexivity. Qed.

Lemma check_one_service_log (w : world) (name url : string) (l : list ev) :
  exists ex,
    SimpleDebug.check_one_service w name url l
    = (l ++ EvHttp "GET" [Lit url] None :: ex, Ok tt)
    /\ Forall (fun e => is_http e = false) ex.
Proof.
  unfold SimpleDebug.check_one_service, http_call. rewrite try_bind_emit.
  match goal with
  | |- exists _, try_except ?m ?h ?l0 = _ /\ _ =>
      assert (Hl : logs (fun x => is_http x = false) (try_except m h))
        by (unfold SimpleDebug.show_service_info; logs_tac);
      assert (Hn : nr (fun _ => True) (try_except m h))
        by (apply nr_try; intros; apply nr_ret; exact I);
      destruct (Hl l0) as (ex & r & Heq & HP & _);
      destruct (Hn l0) as (l' & [] & Heq' & _)
  end.
  rewrite Heq in Heq'. injection Heq' as <- ->.
  exists ex. rewrite Heq, <- app_assoc. auto.
Qed.

Lemma filter_http_nil (ex : list ev) :
  Forall (fun e => is_http e = false) ex -> filter is_http ex = [].
Proof.
  induction 1 as [|x ex Hx _ IH]; simpl; [reflexivity|]. rewrite Hx. exact IH.
Qed.

(** [check_services] requests the four health endpoints once each, in the
    order of the [services] dict, whatever they answer (an exception in
    one check does not stop the others); it makes no other HTTP request. *)
Theorem check_services_requests (w : world) :
  snd (SimpleDebug.check_services w []) = Ok tt
  /\ filter is_http (fst (SimpleDebug.check_services w []))
     = map (fun su => EvHttp "GET" [Lit (snd su)] None) SimpleDebug.services.
Proof.
  assert (H : forall (xs : list (string * string)) l,
    exists ex,
      for_each xs (fun '(name, url) => SimpleDebug.check_one_service w name url) l
      = (l ++ ex, Ok tt)
      /\ filter is_http ex = map (fun su => EvHttp "GET" [Lit (snd su)] None) xs).
  { induction xs as [|[name url] xs IH]; intros l; simpl.
    - exists []. rewrite app_nil_r. auto.
    - destruct (check_one_service_log w name url l) as (ex & Heq & HP).
      unfold bind at 1. rewrite Heq.
      destruct (IH (l ++ EvHttp "GET" [Lit url] None :: ex)) as (ex' & Heq' & Hf).
      rewrite Heq'. exists (EvHttp "GET" [Lit url] None :: ex ++ ex').
      rewrite <- app_assoc. split; [reflexivity|].
      simpl. rewrite filter_app, filter_http_nil, Hf by exact HP. reflexivity. }
  destruct (H SimpleDebug.services []) as (ex & Heq & Hf).
  unfold SimpleDebug.check_services. rewrite Heq. auto.
Qed.

(** ** [scripts/ws/test_websocket_validation.py] *)

Lemma test_mailbox_id_format_nr (w : world) :
  nr (fun _ => True) (WebsocketValidation.test_mailbox_id_format w).
Proof.
  unfold WebsocketValidation.test_mailbox_id_format. apply nr_try. intros. apply nr_ret. exact I.
Qed.

Lemma test_mailbox_id_format_no_write (w : world) :
  logs (fun e => is_write e = false) (WebsocketValidation.test_mailbox_id_format w).
Proof. unfold WebsocketValidation.test_mailbox_id_format. logs_tac. Qed.

Lemma filter_write_nil (ex : list ev) :
  Forall (fun e => is_write e = false) ex -> filter is_write ex = [].
Proof.
  induction 1 as [|x ex Hx _ IH]; simpl; [reflexivity|]. rewrite Hx. exact IH.
Qed.

(** The HTML page is written exactly when [test_mailbox_id_format] returned
    a mailbox, and then exactly once; otherwise the run prints the
    termination message and writes nothing. *)
Theorem validation_writes_page_iff_mailbox (w : world) :
  match snd (WebsocketValidation.test_mailbox_id_format w []) with
  | Ok (Some _) =>
      filter is_write (fst (WebsocketValidation.main w []))
      = [EvWriteFile "scripts/ws/test_websocket_validation.html"]
  | _ =>
      WebsocketValidation.main w []
      = (fst (WebsocketValidation.test_mailbox_id_format w []) ++ [EvTerminated], Ok tt)
      /\ filter is_write (fst (WebsocketValidation.main w [])) = []
  end.
Proof.
  destruct (test_mailbox_id_format_no_write w []) as (ex & r & Heq & HP & _).
  destruct (test_mailbox_id_format_nr w []) as (l' & x & Heq' & _).
  rewrite Heq in Heq'. injection Heq' as <- ->. simpl in Heq.
  unfold WebsocketValidation.main. rewrite Heq. simpl snd.
  destruct x as [info|].
  - assert (Hs : snd (WebsocketValidation.test_mailbox_id_format w []) = Ok (Some info))
      by (rewrite Heq; reflexivity).
    destruct (test_mailbox_id_format_success w [] info Hs)
      as (r & d & s & data & sid & token & address & n & tp & _ & _ & _ & _ & _ & _ & _ &
          _ & _ & Hsl & -> & _).
    unfold bind at 1. rewrite Heq. cbv beta iota.
    unfold WebsocketValidation.create_websocket_test_html, write_file, py_slice_to.
    cbn [WebsocketValidation.info_token].
    destruct token; try discriminate Hsl; unfold bind, ret, emit; simpl;
      destruct (write_raises w); simpl;
      rewrite filter_app, filter_write_nil by exact HP; reflexivity.
  - unfold bind. rewrite Heq. unfold emit. split; [reflexivity|].
    simpl. rewrite filter_app, filter_write_nil by exact HP. reflexivity.
Qed.

(** A provisioning response whose [data.id] is not a string makes
    [len(mailbox_id)] or [re.match] raise: [test_mailbox_id_format] returns
    [None] and the run stops without writing the page. *)
Theorem validation_non_string_id_stops (w : world) (r : response)
    (d data : list (string * pyval)) (v : pyval) :
  http w "POST" generate_url = Ok r ->
  json_body r = Some (PDict d) ->
  dict_lookup d "data" = Some (PDict data) ->
  dict_lookup data "id" = Some v ->
  (forall s, v <> PStr s) ->
  snd (WebsocketValidation.test_mailbox_id_format w []) = Ok None
  /\ WebsocketValidation.main w []
     = (fst (WebsocketValidation.test_mailbox_id_format w []) ++ [EvTerminated], Ok tt).
Proof.
  intros Hr Hj Hd Hid Hv.
  destruct (test_mailbox_id_format_nr w []) as (l' & x & Heq & _).
  destruct x as [info|].
  - exfalso.
    assert (Hs : snd (WebsocketValidation.test_mailbox_id_format w []) = Ok (Some info))
      by (rewrite Heq; reflexivity).
    destruct (test_mailbox_id_format_success w [] info Hs)
      as (r' & d' & s & data' & sid & token & address & n & tp & Hr' & _ & Hj' & _ & _ &
          Hd' & Hid' & _).
    rewrite Hr in Hr'. injection Hr' as <-. rewrite Hj in Hj'. injection Hj' as <-.
    rewrite Hd in Hd'. injection Hd' as <-. rewrite Hid in Hid'. injection Hid' as ->.
    exact (Hv sid eq_refl).
  - rewrite Heq. split; [reflexivity|].
    unfold WebsocketValidation.main, bind. rewrite Heq. reflexivity.
Qed.

(** ** The three-message senders *)

Lemma try_send_pause_log (w : world) (port secs : Z) (m : message) (i : nat) (l : list ev) :
  count_smtp l = i ->
  try_except (smtp_transaction w "localhost" port m ;;
              if Nat.ltb i 2 then sleep secs else ret tt) (fun _ => ret tt) l
  = (l ++ send_with_pause w port secs m i, Ok tt).
Proof.
  intros Hc. unfold try_except, bind at 1. rewrite smtp_transaction_log, Hc.
  unfold send_with_pause. destruct (session_ok w i) eqn:Hs; simpl.
  - destruct (Nat.ltb i 2); unfold sleep, emit, ret; rewrite <- ?app_assoc; reflexivity.
  - unfold session_ok in Hs.
    destruct (smtp w i Connect), (smtp w i Sendmail), (smtp w i Quit);
      try discriminate; unfold ret; rewrite <- ?app_assoc; reflexivity.
Qed.

Lemma for_each_sends (f : nat -> M unit) (g : nat -> list ev) (k : nat) :
  (forall i l, count_smtp l = i -> f i l = (l ++ g i, Ok tt)) ->
  (forall i, count_smtp (g i) = 1%nat) ->
  forall s l, count_smtp l = s ->
  for_each (seq s k) f l = (l ++ flat_map g (seq s k), Ok tt).
Proof.
  intros Hf Hg. induction k as [|k IH]; intros s l Hc; simpl.
  - unfold ret. rewrite app_nil_r. reflexivity.
  - unfold bind. rewrite (Hf s l Hc). rewrite IH.
    + rewrite <- app_assoc. reflexivity.
    + rewrite count_smtp_app, Hc, Hg. lia.
Qed.

Lemma send_with_pause_count (w : world) port secs m i :
  count_smtp (send_with_pause w port secs m i) = 1%nat.
Proof. unfold send_with_pause. simpl. destruct (session_ok w i && Nat.ltb i 2); reflexivity. Qed.

(** [manual_websocket_test.py]: after the Enter key, three messages go to
    [websockettest@127.0.0.1] over [localhost:2525], in order, each in its
    own session; a send that fails is reported and the next one is still
    made, and the 2-second pause follows only the first two sends, and only
    when they went through. *)
Theorem manual_sends_three (w : world) :
  input_raises w = None ->
  ManualWebsocket.main w []
  = (EvInput :: flat_map (fun i => send_with_pause w 2525 2 (ManualWebsocket.manual_message w i) i)
                         (seq 0 3), Ok tt).
Proof.
  intros Hin. unfold ManualWebsocket.main, read_input. rewrite Hin.
  unfold bind at 1 2, emit at 1, ret at 1. cbv beta iota.
  rewrite (for_each_sends _ (fun i => send_with_pause w 2525 2 (ManualWebsocket.manual_message w i) i)).
  - reflexivity.
  - intros i l Hc. unfold ManualWebsocket.send_one. apply try_send_pause_log, Hc.
  - intros i. apply send_with_pause_count.
  - reflexivity.
Qed.

Lemma create_step_nr (w : world) : nr (fun _ => True) (FrontendWebsocket.create_step w).
Proof. unfold FrontendWebsocket.create_step. apply nr_try. intros. apply nr_ret. exact I. Qed.

Lemma create_step_logs (w : world) :
  logs (fun e => later_phase e = false) (FrontendWebsocket.create_step w).
Proof.
  unfold FrontendWebsocket.create_step. logs_tac; simpl; reflexivity.
Qed.

Lemma integration_step_log (w : world) (l : list ev) :
  exists ex,
    FrontendWebsocket.integration_step w l
    = (l ++ EvHttp "GET" [Lit "http://localhost:3001/health/integration"] None :: ex, Ok tt).
Proof.
  unfold FrontendWebsocket.integration_step, http_call. rewrite try_bind_emit.
  match goal with
  | |- exists _, try_except ?m ?h ?l0 = _ =>
      assert (Hl : logs (fun _ => True) (try_except m h)) by logs_tac;
      assert (Hn : nr (fun _ => True) (try_except m h))
        by (apply nr_try; intros; apply nr_ret; exact I);
      destruct (Hl l0) as (ex & r & Heq & _ & _);
      destruct (Hn l0) as (l' & [] & Heq' & _)
  end.
  rewrite Heq in Heq'. injection Heq' as <- ->.
  exists ex. rewrite Heq, <- app_assoc. reflexivity.
Qed.

(** [test_frontend_websocket.py]: when mailbox creation fails the script
    returns without waiting for Enter and without sending; otherwise, after
    Enter, it sends three messages to the created address over
    [localhost:2525] (3-second pauses after the first two sends that went
    through) and then requests the integration health endpoint. *)
Theorem frontend_flow (w : world) :
  input_raises w = None ->
  match snd (FrontendWebsocket.create_step w []) with
  | Ok (Some (address, _, _)) =>
      exists post,
        FrontendWebsocket.main w []
        = (fst (FrontendWebsocket.create_step w []) ++ [EvInput]
             ++ flat_map (fun i => send_with_pause w 2525 3
                                     (FrontendWebsocket.push_message w address i) i)
                         (seq 0 3)
             ++ EvHttp "GET" [Lit "http://localhost:3001/health/integration"] None :: post,
           Ok tt)
  | _ => FrontendWebsocket.main w [] = (fst (FrontendWebsocket.create_step w []), Ok tt)
  end.
Proof.
  intros Hin.
  destruct (create_step_logs w []) as (ex & r & Heq & HP & _).
  destruct (create_step_nr w []) as (l' & x & Heq' & _).
  rewrite Heq in Heq'. injection Heq' as <- ->. simpl in Heq.
  rewrite Heq. simpl fst; simpl snd.
  destruct x as [[[address id] token]|];
    unfold FrontendWebsocket.main; unfold bind at 1; rewrite Heq; [|reflexivity].
  unfold read_input. rewrite Hin. unfold bind at 1 2 3, emit at 1, ret at 1.
  rewrite (for_each_sends _ (fun i => send_with_pause w 2525 3
                                       (FrontendWebsocket.push_message w address i) i)).
  - destruct (integration_step_log w
      ((ex ++ [EvInput]) ++ flat_map (fun i => send_with_pause w 2525 3
                                         (FrontendWebsocket.push_message w address i) i)
                                     (seq 0 3))) as (post & Hpost).
    exists post. rewrite Hpost. rewrite <- !app_assoc. reflexivity.
  - intros i l Hc. unfold FrontendWebsocket.send_one. apply try_send_pause_log, Hc.
  - intros i. apply send_with_pause_count.
  - rewrite count_smtp_app, (count_smtp_no_later ex HP). reflexivity.
Qed.

(** ** [scripts/ws/test_current_setup.py] *)

Lemma check_backend_status_logs (w : world) :
  logs (fun e => is_smtp e = false) (CurrentSetup.check_backend_status w).
Proof. unfold CurrentSetup.check_backend_status. logs_tac. Qed.

Lemma check_backend_status_nr (w : world) :
  nr (fun _ => True) (CurrentSetup.check_backend_status w).
Proof.
  unfold CurrentSetup.check_backend_status. apply nr_try. intros. apply nr_ret. exact I.
Qed.

Lemma count_smtp_none (ex : list ev) :
  Forall (fun e => is_smtp e = false) ex -> count_smtp ex = O.
Proof.
  induction 1 as [|e ex He _ IH]; simpl; [reflexivity|].
  destruct e; simpl in *; try discriminate; exact IH.
Qed.

(** Each domain test sends one message from [test@example.com] to
    [test<epoch>@<domain>] over [localhost:2525] and reports whether the
    session went through, never raising; [main] runs the [127.0.0.1] test
    and then the [nnu.edu.kg] test whatever the backend check found, in
    the first and second SMTP sessions of the run. *)
Theorem current_setup_tries_both_domains (w : world) :
  (forall dom l,
     CurrentSetup.test_with_domain w dom l
     = (l ++ [EvSmtp "localhost" 2525
                (CurrentSetup.domain_message
                   (String.append "test" (String.append (z_to_dec (epoch w))
                                            (String.append "@" dom))))],
        Ok (session_ok w (count_smtp l))))
  /\ CurrentSetup.main w []
     = (fst (CurrentSetup.check_backend_status w [])
          ++ [EvSmtp "localhost" 2525
                (CurrentSetup.domain_message
                   (String.append "test" (String.append (z_to_dec (epoch w)) "@127.0.0.1")));
              EvSmtp "localhost" 2525
                (CurrentSetup.domain_message
                   (String.append "test" (String.append (z_to_dec (epoch w)) "@nnu.edu.kg")))],
        Ok tt)
  /\ count_smtp (fst (CurrentSetup.check_backend_status w [])) = O.
Proof.
  assert (Hd : forall dom l,
     CurrentSetup.test_with_domain w dom l
     = (l ++ [EvSmtp "localhost" 2525
                (CurrentSetup.domain_message
                   (String.append "test" (String.append (z_to_dec (epoch w))
                                            (String.append "@" dom))))],
        Ok (session_ok w (count_smtp l)))).
  { intros dom l. unfold CurrentSetup.test_with_domain. apply try_transaction_log. }
  destruct (check_backend_status_logs w []) as (ex & r & Heq & HP & _).
  destruct (check_backend_status_nr w []) as (l' & [] & Heq' & _).
  rewrite Heq in Heq'. injection Heq' as <- ->. simpl in Heq.
  split; [exact Hd|]. rewrite Heq. simpl fst.
  split; [|apply count_smtp_none, HP].
  unfold CurrentSetup.main, CurrentSetup.test_with_127_domain,
    CurrentSetup.test_with_nnu_domain.
  unfold bind at 1. rewrite Heq. cbv beta iota.
  unfold bind at 1. rewrite Hd. cbv beta iota.
  unfold bind at 1. rewrite Hd. unfold ret.
  rewrite <- app_assoc. reflexivity.
Qed.

(** [check_backend_status] requests [/health/mail] only when the request
    to [/health] did not raise, and then whatever status [/health]
    answered. *)
Theorem backend_status_request_order (w : world) (l : list ev) :
  match http w "GET" [Lit "http://localhost:3001/health"] with
  | Err _ =>
      CurrentSetup.check_backend_status w l
      = (l ++ [EvHttp "GET" [Lit "http://localhost:3001/health"] None], Ok tt)
  | Ok _ =>
      exists ex,
        CurrentSetup.check_backend_status w l
        = (l ++ [EvHttp "GET" [Lit "http://localhost:3001/health"] None;
                 EvHttp "GET" [Lit "http://localhost:3001/health/mail"] None] ++ ex, Ok tt)
  end.
Proof.
  unfold CurrentSetup.check_backend_status, http_call at 1. rewrite try_bind_emit.
  destruct (http w "GET" [Lit "http://localhost:3001/health"]) as [r0|e] eqn:H0.
  - unfold bind at 1. unfold ret at 1. cbv beta iota.
    unfold http_call. rewrite try_bind_emit.
    match goal with
    | |- exists _, try_except ?m ?h ?l0 = _ =>
        assert (Hl : logs (fun _ => True) (try_except m h)) by logs_tac;
        assert (Hn : nr (fun _ => True) (try_except m h))
          by (apply nr_try; intros; apply nr_ret; exact I);
        destruct (Hl l0) as (ex & r & Heq & _ & _);
        destruct (Hn l0) as (l' & [] & Heq' & _)
    end.
    rewrite Heq in Heq'. injection Heq' as <- ->.
    exists ex. rewrite Heq, <- !app_assoc. reflexivity.
  - unfold try_except, bind, http_call, emit, raise, ret. cbn. rewrite H0. reflexivity.
Qed.

(** ** [send_test_mail.py] and [test_external_email.py] *)

(** Each script opens one SMTP session ([127.0.0.1:2525] and
    [127.0.0.1:1025]) for its fixed message and returns normally whatever
    the session does. *)
Theorem single_send_scripts (w : world) (l : list ev) :
  SendTestMail.send_test_email w l
  = (l ++ [EvSmtp "127.0.0.1" 2525 SendTestMail.test_message], Ok tt)
  /\ ExternalEmail.send_external_email w l
  = (l ++ [EvSmtp "127.0.0.1" 1025 ExternalEmail.external_message], Ok tt).
Proof.
  unfold SendTestMail.send_test_email, ExternalEmail.send_external_email, try_except.
  rewrite !smtp_transaction_log. unfold session_ok.
  destruct (smtp w (count_smtp l) Connect), (smtp w (count_smtp l) Sendmail),
    (smtp w (count_smtp l) Quit); split; reflexivity.
Qed.

(** ** Witnesses of the further properties *)

Lemma create_mailbox_returns_envelope_witness :
  SimpleDebug.create_mailbox ok_world []
  = ([EvHttp "POST" generate_url None],
     Ok (Some (SimpleDebug.mkMailbox sample_address sample_id sample_token))).
Proof.
  apply (create_mailbox_returns_envelope ok_world sample_address sample_id sample_token []).
  do 4 eexists. repeat split; try reflexivity. right; reflexivity.
Defined.

Lemma check_mailbox_emails_failure_empty_witness :
  SimpleDebug.check_mailbox_emails failing_provision_world sample_id sample_token []
  = ([EvHttp "GET" (SimpleDebug.mail_url sample_id) (Some [Lit "Bearer "; Val sample_token])],
     Ok (PList [])).
Proof.
  apply (check_mailbox_emails_failure_empty failing_provision_world sample_id sample_token []).
  simpl. discriminate.
Defined.

Lemma check_mailbox_emails_listing_witness :
  SimpleDebug.check_mailbox_emails listing_world sample_id sample_token []
  = ([EvHttp "GET" (SimpleDebug.mail_url sample_id) (Some [Lit "Bearer "; Val sample_token]);
      EvField "emailCount" (PInt (Z.of_nat (length [msg1; PInt 7])))]
       ++ flat_map listing_events [msg1; PInt 7],
     Ok (PList [msg1; PInt 7])).
Proof.
  apply (check_mailbox_emails_listing listing_world sample_id sample_token []
           (mkResponse 200 (Some (wrapped [msg1; PInt 7])))
           [("success", PBool true); ("data", PList [msg1; PInt 7])] (PBool true));
    reflexivity.
Defined.

Lemma simple_debug_send_failure_terminates_witness :
  exists pre,
    SimpleDebug.main send_fail_world []
    = (pre ++ [EvHttp "POST" generate_url None;
               EvSmtp "localhost" 2525 (debug_message send_fail_world sample_address);
               EvTerminated], Ok tt)
    /\ filter later_phase pre = [].
Proof.
  apply (simple_debug_send_failure_terminates send_fail_world sample_address sample_id sample_token).
  - do 4 eexists. repeat split; try reflexivity. right; reflexivity.
  - reflexivity.
Defined.

Lemma validation_non_string_id_stops_witness :
  snd (WebsocketValidation.test_mailbox_id_format numeric_id_world []) = Ok None
  /\ WebsocketValidation.main numeric_id_world []
     = (fst (WebsocketValidation.test_mailbox_id_format numeric_id_world []) ++ [EvTerminated],
        Ok tt).
Proof.
  apply (validation_non_string_id_stops numeric_id_world
           (mkResponse 201 (Some (PDict numeric_id_envelope)))
           numeric_id_envelope numeric_id_data (PInt 42)); try reflexivity.
  intros s. discriminate.
Defined.

Lemma manual_sends_three_witness :
  ManualWebsocket.main send_fail_world []
  = (EvInput :: flat_map (fun i => send_with_pause send_fail_world 2525 2
                                     (ManualWebsocket.manual_message send_fail_world i) i)
                         (seq 0 3), Ok tt).
Proof. apply manual_sends_three. reflexivity. Defined.

Lemma frontend_flow_witness :
  match snd (FrontendWebsocket.create_step ok_world []) with
  | Ok (Some (address, _, _)) =>
      exists post,
        FrontendWebsocket.main ok_world []
        = (fst (FrontendWebsocket.create_step ok_world []) ++ [EvInput]
             ++ flat_map (fun i => send_with_pause ok_world 2525 3
                                     (FrontendWebsocket.push_message ok_world address i) i)
                         (seq 0 3)
             ++ EvHttp "GET" [Lit "http://localhost:3001/health/integration"] None :: post,
           Ok tt)
  | _ => FrontendWebsocket.main ok_world [] = (fst (FrontendWebsocket.create_step ok_world []), Ok tt)
  end.
Proof. apply frontend_flow. reflexivity. Defined.
